(** * Gymmando exercise data fetcher: a shallow embedding of
    [src/data_fetcher.py] (class [ExerciseDataFetcher]) and the properties
    of its filter, lookup, export, analysis and fetch methods.

    Python values are modelled as follows.
    - A [str] is a [string]: a sequence of code points below 256, with
      [str.lower] as Python has it on that range.
    - A value read by [json.loads] is a [json]; a [dict] is an association
      list in insertion order, read with [dict_get] (first binding of the
      key: a Python dict binds a key once). A dataset is a list of dicts.
    - Numbers are integers: no field the methods read is a number.
    - A call that can raise returns a [result]; the exception is a value.
    - The network and the files are a [world] passed through the methods
      that use them.
    - Of the console output only the sections of the analysis are kept,
      as the [report] it computes. *)

From Stdlib Require Import String Ascii ZArith Lia Bool Sorted Permutation.
From stdpp Require Import base option list strings gmap.

Set Warnings "-register-all".

Local Open Scope string_scope.
Local Open Scope list_scope.

(** ** Values *)

Inductive json : Type :=
| JNull
| JBool (b : bool)
| JNum (n : Z)
| JStr (s : string)
| JList (l : list json)
| JObj (kvs : list (string * json)).

(** A Python [dict] with [str] keys, in insertion order. *)
Abbreviation dict := (list (string * json)).

(** The exceptions the methods can let through. *)
Inductive exn : Type :=
| TypeError
| AttributeError
| NotImplementedError
| JSONDecodeError
| TransportError
| HTTPStatusError
| OSError.

Inductive result (A : Type) : Type :=
| Ok (a : A)
| Raise (e : exn).
Arguments Ok {A} a.
Arguments Raise {A} e.

#[global] Instance result_ret : MRet result := fun A a => Ok a.
#[global] Instance result_bind : MBind result := fun A B f m =>
  match m with
  | Ok a => f a
  | Raise e => Raise e
  end.

(** ** Strings *)

(** [sub in s] on two [str]: [sub] occurs in [s] as a contiguous run. *)
Fixpoint str_in (sub s : string) : bool :=
  String.prefix sub s ||
  match s with
  | EmptyString => false
  | String _ s' => str_in sub s'
  end.

(** [str.lower] on one code point below 256: the upper-case letters are A-Z
    and the Latin-1 capitals U+00C0..U+00DE without the multiplication
    sign U+00D7; each maps to the code point 32 above it. *)
Definition lower_char (c : ascii) : ascii :=
  let n := nat_of_ascii c in
  if ((65 <=? n) && (n <=? 90))%nat then ascii_of_nat (n + 32)
  else if ((192 <=? n) && (n <=? 222) && negb (n =? 215))%nat
       then ascii_of_nat (n + 32)
  else c.

Fixpoint lower (s : string) : string :=
  match s with
  | EmptyString => EmptyString
  | String c s' => String (lower_char c) (lower s')
  end.

(** ** Dictionaries *)

Fixpoint dict_get (k : string) (d : dict) : option json :=
  match d with
  | [] => None
  | (k', v) :: d' => if String.eqb k k' then Some v else dict_get k d'
  end.

(** [d.get(k, default)]; [d.get(k)] is [get d k JNull]. *)
Definition get (d : dict) (k : string) (default : json) : json :=
  match dict_get k d with
  | Some v => v
  | None => default
  end.

(** [k in d]. *)
Definition dict_has (k : string) (d : dict) : bool :=
  match dict_get k d with
  | Some _ => true
  | None => false
  end.

(** [v == s] for a [str] [s]: only an equal [str] compares equal. *)
Definition eq_str (v : json) (s : string) : bool :=
  match v with
  | JStr s' => String.eqb s' s
  | _ => false
  end.

(** [s in v] for a [str] [s]: element of a list, substring of a str, key
    of a dict; any other container raises [TypeError]. *)
Definition py_in (s : string) (v : json) : result bool :=
  match v with
  | JList l => Ok (existsb (fun x => eq_str x s) l)
  | JStr s' => Ok (str_in s s')
  | JObj kvs => Ok (dict_has s kvs)
  | JNull | JBool _ | JNum _ => Raise TypeError
  end.

(** Truth value of an optional [str] argument: [None] and [''] are false. *)
Definition truthy (c : option string) : bool :=
  match c with
  | None => false
  | Some s => negb (String.eqb s "")
  end.

(** ** List comprehensions *)

(** [[e for e in l if p(e)]] where [p] can raise: the first exception in
    list order comes out. *)
Fixpoint comprehension {A} (p : A -> result bool) (l : list A)
  : result (list A) :=
  match l with
  | [] => Ok []
  | x :: l' =>
      b ← p x;
      rest ← comprehension p l';
      mret (if b : bool then x :: rest else rest)
  end.

(** ** [filter_exercises] *)

Definition filter_exercises (exercises : list dict)
    (equipment level muscle : option string) : result (list dict) :=
  let filtered := exercises in
  filtered ←
    match equipment with
    | Some eq =>
        if truthy equipment
        then comprehension (fun e => Ok (eq_str (get e "equipment" JNull) eq))
               filtered
        else Ok filtered
    | None => Ok filtered
    end;
  filtered ←
    match level with
    | Some lv =>
        if truthy level
        then comprehension (fun e => Ok (eq_str (get e "level" JNull) lv))
               filtered
        else Ok filtered
    | None => Ok filtered
    end;
  filtered ←
    match muscle with
    | Some m =>
        if truthy muscle
        then comprehension (fun e => py_in m (get e "primaryMuscles" (JList [])))
               filtered
        else Ok filtered
    | None => Ok filtered
    end;
  Ok filtered.

(** The two records of the example of the specification (section 8). *)
Definition bench_press : dict :=
  [("id", JStr "1"); ("name", JStr "Bench Press");
   ("equipment", JStr "barbell"); ("level", JStr "intermediate");
   ("primaryMuscles", JList [JStr "chest"])].
Definition dumbbell_fly : dict :=
  [("id", JStr "2"); ("name", JStr "Dumbbell Fly");
   ("equipment", JStr "dumbbell"); ("level", JStr "beginner");
   ("primaryMuscles", JList [JStr "chest"])].

(** ** [get_exercise_by_name] *)

(** [v.lower()]: only a [str] has the method. *)
Definition str_lower (v : json) : result string :=
  match v with
  | JStr s => Ok (lower s)
  | _ => Raise AttributeError
  end.

(** The [for] loop of [get_exercise_by_name], [name_lower] computed. *)
Fixpoint get_exercise_by_name_loop (name_lower : string)
    (exercises : list dict) : result (option dict) :=
  match exercises with
  | [] => Ok None
  | exercise :: rest =>
      s ← str_lower (get exercise "name" (JStr ""));
      if str_in name_lower s then Ok (Some exercise)
      else get_exercise_by_name_loop name_lower rest
  end.

Definition get_exercise_by_name (exercises : list dict) (name : string)
  : result (option dict) :=
  let name_lower := lower name in
  get_exercise_by_name_loop name_lower exercises.

(** ** The world outside: network and files *)

(** What a file holds: the value [json.dump] wrote (a list of records), or
    the table [to_csv] wrote, given by its header and rows. *)
Inductive document : Type :=
| DocJson (v : list dict)
| DocCsv (header : list string) (rows : list dict).

(** An HTTP response: its status code, and what [response.json()] gives,
    [None] when the body is not JSON. The endpoint serves a JSON array of
    objects, so a decoded body is a list of dicts. *)
Record response : Type := {
  status_code : Z;
  body : option (list dict)
}.

Inductive http_outcome : Type :=
| NoResponse
| Responded (r : response).

(** The world: [net n] is the outcome of the [n]-th GET to come,
    [requests] the URLs requested so far, [writable] the paths that can be
    opened for writing and [files] what has been written. *)
Record world : Type := {
  net : nat -> http_outcome;
  requests : list string;
  writable : string -> bool;
  files : gmap string document
}.

(** A method that acts on the world: its outcome and the world after it,
    which keeps what was done before an exception. *)
Definition io (A : Type) : Type := world -> result A * world.

#[global] Instance io_ret : MRet io := fun A a w => (Ok a, w).
#[global] Instance io_bind : MBind io := fun A B f m w =>
  match m w with
  | (Ok a, w') => f a w'
  | (Raise e, w') => (Raise e, w')
  end.

Definition raise {A} (e : exn) : io A := fun w => (Raise e, w).

(** The world after one more request to [url]. *)
Definition with_request (url : string) (w : world) : world :=
  {| net := net w; requests := requests w ++ [url];
     writable := writable w; files := files w |}.

(** The world after [doc] was written to [path]. *)
Definition with_file (path : string) (doc : document) (w : world) : world :=
  {| net := net w; requests := requests w;
     writable := writable w; files := <[path := doc]> (files w) |}.

(** [client.get(url)]: one request; no answer in time is a
    [TransportError]. *)
Definition client_get (url : string) : io response := fun w =>
  match net w (length (requests w)) with
  | NoResponse => (Raise TransportError, with_request url w)
  | Responded r => (Ok r, with_request url w)
  end.

(** Modelled from the spec: [Response.raise_for_status] of httpx, which is
    not under src/. The spec (4.1, 7) gives: [HTTPStatusError] when the
    status is not 2xx. *)
Definition raise_for_status (r : response) : io unit :=
  if ((200 <=? status_code r) && (status_code r <? 300))%Z
  then mret tt
  else raise HTTPStatusError.

(** [response.json()]. *)
Definition response_json (r : response) : io (list dict) :=
  match body r with
  | Some v => mret v
  | None => raise JSONDecodeError
  end.

(** [open(path, 'w')] and the write: [OSError] when the path cannot be
    opened, and then nothing is written. *)
Definition write_file (path : string) (doc : document) : io unit := fun w =>
  if writable w path
  then (Ok tt, with_file path doc w)
  else (Raise OSError, w).

(** [self.output_dir / name]. *)
Definition path_join (dir name : string) : string := dir +:+ "/" +:+ name.

(** The object: the two attributes [__init__] sets. *)
Record fetcher : Type := {
  output_dir : string;
  github_url : string
}.

Definition new_fetcher (output_dir : string) : fetcher :=
  {| output_dir := output_dir;
     github_url := "https://raw.githubusercontent.com/yuhonas/free-exercise-db/main/dist/exercises.json" |}.

(** ** [export_for_gymmando] *)

(** The dict built in the loop body. *)
Definition simplified (ex : dict) : dict :=
  [ ("id", get ex "id" JNull);
    ("name", get ex "name" JNull);
    ("equipment", get ex "equipment" JNull);
    ("level", get ex "level" JNull);
    ("primaryMuscles", get ex "primaryMuscles" (JList []));
    ("secondaryMuscles", get ex "secondaryMuscles" (JList []));
    ("instructions", get ex "instructions" (JList []));
    ("category", get ex "category" JNull);
    ("force", get ex "force" JNull);
    ("mechanic", get ex "mechanic" JNull) ].

(** The loop: [gymmando_format] starts empty and gets one [append] per
    exercise. *)
Definition gymmando_format (exercises : list dict) : list dict :=
  fold_left (fun acc ex => acc ++ [simplified ex]) exercises [].

Definition export_for_gymmando (self : fetcher) (exercises : list dict)
    (output_file : string) : io (list dict) :=
  let out := gymmando_format exercises in
  let output_path := path_join (output_dir self) output_file in
  _ ← write_file output_path (DocJson out);
  mret out.

(** ** Data frames

    [pd.json_normalize] and [Series.value_counts] are library code; the
    model below keeps what [analyze_exercises] observes of them: the column
    names, the cells of a column, and the table of counts. *)

(** [d[k] = v]: the binding of [k] is replaced in place, a new key goes to
    the end. *)
Fixpoint dict_set (k : string) (v : json) (d : dict) : dict :=
  match d with
  | [] => [(k, v)]
  | (k', v') :: d' =>
      if String.eqb k k' then (k, v) :: d' else (k', v') :: dict_set k v d'
  end.

Definition is_dict (v : json) : bool :=
  match v with
  | JObj _ => true
  | _ => false
  end.

(** Column name of the key [key] below the path [key_string]. *)
Definition new_key (key_string key : string) : string :=
  if String.eqb key_string "" then key else key_string +:+ "." +:+ key.

(** Flattening of nested dicts: a value that is not a dict becomes the
    cell of the column named by its path, keys joined with a dot. *)
Fixpoint normalise_json (data : json) (key_string : string) (acc : dict)
  : dict :=
  match data with
  | JObj kvs =>
      (fix items (kvs : list (string * json)) (acc : dict) : dict :=
         match kvs with
         | [] => acc
         | (key, value) :: kvs' =>
             items kvs' (normalise_json value (new_key key_string key) acc)
         end) kvs acc
  | _ => dict_set key_string data acc
  end.

(** [d1.update(d2)], as in [{**d1, **d2}]. *)
Definition dict_update (d1 d2 : dict) : dict :=
  fold_left (fun a kv => dict_set kv.1 kv.2 a) d2 d1.

(** One row: the top-level values that are not dicts first, then the
    flattened nested dicts. *)
Definition normalise_row (d : dict) : dict :=
  let top_dict := List.filter (fun kv => negb (is_dict kv.2)) d in
  let nested_dict :=
    normalise_json (JObj (List.filter (fun kv => is_dict kv.2) d)) "" [] in
  dict_update top_dict nested_dict.

(** Union of the keys of the rows, in first-seen order. *)
Fixpoint add_keys (ks : list string) (cols : list string) : list string :=
  match ks with
  | [] => cols
  | k :: ks' =>
      add_keys ks' (if existsb (String.eqb k) cols then cols else cols ++ [k])
  end.

Record dataframe : Type := {
  columns : list string;
  rows : list dict
}.

(** Modelled from the spec: [pd.json_normalize] of pandas, which is not
    under src/. The spec (4.2) gives: one row per record, nested structure
    exposed as columns with dotted paths, the columns being the union of
    the keys observed, and a row without a column having no value there. *)
Definition json_normalize (data : list dict) : dataframe :=
  let rs := map normalise_row data in
  {| columns := fold_left (fun cols r => add_keys (map fst r) cols) rs [];
     rows := rs |}.

(** [df[c]]: the cells of column [c], [None] where the row has no value
    (NaN). *)
Definition column (df : dataframe) (c : string) : list (option json) :=
  map (dict_get c) (rows df).

(** [==] on the values a hash table can hold: [True] and [False] are the
    numbers 1 and 0. *)
Definition key_eq (a b : json) : bool :=
  match a, b with
  | JStr s, JStr t => String.eqb s t
  | JNum n, JNum m => Z.eqb n m
  | JBool x, JBool y => Bool.eqb x y
  | JBool x, JNum n | JNum n, JBool x => Z.eqb n (Z.b2z x)
  | _, _ => false
  end.

(** The cells that are counted: NaN and [None] are dropped; a list or a
    dict cannot be hashed. *)
Fixpoint dropna (cells : list (option json)) : result (list json) :=
  match cells with
  | [] => Ok []
  | c :: cells' =>
      match c with
      | None | Some JNull => dropna cells'
      | Some (JList _) | Some (JObj _) => Raise TypeError
      | Some v => rest ← dropna cells'; Ok (v :: rest)
      end
  end.

(** One more occurrence of [v] in a table kept in first-seen order. *)
Fixpoint tally_add (v : json) (t : list (json * nat)) : list (json * nat) :=
  match t with
  | [] => [(v, 1)]
  | (k, n) :: t' =>
      if key_eq k v then (k, S n) :: t' else (k, n) :: tally_add v t'
  end.

Definition tally (vs : list json) : list (json * nat) :=
  fold_left (fun t v => tally_add v t) vs [].

(** Insertion of a row into a table sorted by falling count, in front of
    the first row whose count is not greater. *)
Fixpoint insert_desc (x : json * nat) (t : list (json * nat))
  : list (json * nat) :=
  match t with
  | [] => [x]
  | y :: t' => if (x.2 <? y.2)%nat then y :: insert_desc x t' else x :: y :: t'
  end.

Fixpoint sort_desc (t : list (json * nat)) : list (json * nat) :=
  match t with
  | [] => []
  | x :: t' => insert_desc x (sort_desc t')
  end.

(** Modelled from the spec: [Series.value_counts] of pandas, which is not
    under src/. The spec (4.3) gives: the count of records per distinct
    value, sorted descending by count, ties broken by first-seen order
    (stable sort). Missing values are not counted. *)
Definition value_counts (cells : list (option json))
  : result (list (json * nat)) :=
  vs ← dropna cells;
  Ok (sort_desc (tally vs)).

(** ** [analyze_exercises] *)

(** What the method prints, section by section; a section that is not
    printed is [None]. *)
Record report : Type := {
  total : nat;
  column_names : list string;
  by_equipment : option (list (json * nat));
  by_level : option (list (json * nat));
  by_muscle : option (list (json * nat))
}.

Definition has_column (df : dataframe) (c : string) : bool :=
  existsb (String.eqb c) (columns df).

(** [value_counts] of column [c] when the frame has it. *)
Definition counts_if_present (df : dataframe) (c : string)
  : result (option (list (json * nat))) :=
  if has_column df c
  then t ← value_counts (column df c); Ok (Some t)
  else Ok None.

(** The loop over [df['primaryMuscles']]: [all_muscles] starts empty and
    is extended by every cell that is a list; any other cell is passed
    over. *)
Definition all_muscles (cells : list (option json)) : list json :=
  fold_left (fun acc muscles =>
               match muscles with
               | Some (JList l) => acc ++ l
               | _ => acc
               end) cells [].

Definition analyze_exercises (exercises : list dict)
  : result (dataframe * report) :=
  let df := json_normalize exercises in
  eq ← counts_if_present df "equipment";
  lv ← counts_if_present df "level";
  mu ← (if has_column df "primaryMuscles"
        then
          let all_muscles := all_muscles (column df "primaryMuscles") in
          muscle_counts ← value_counts (map Some all_muscles);
          Ok (Some muscle_counts)
        else Ok None);
  Ok (df, {| total := length exercises; column_names := columns df;
             by_equipment := eq; by_level := lv; by_muscle := mu |}).

(** ** [fetch_github_exercises] *)

Definition fetch_github_exercises (self : fetcher) : io (list dict) :=
  response ← client_get (github_url self);
  _ ← raise_for_status response;
  exercises ← response_json response;
  let output_path := path_join (output_dir self) "github_exercises.json" in
  _ ← write_file output_path (DocJson exercises);
  let df := json_normalize exercises in
  let csv_path := path_join (output_dir self) "github_exercises.csv" in
  _ ← write_file csv_path (DocCsv (columns df) (rows df));
  mret exercises.

(** ** List objects

    [filter_exercises] returns a list object: the one it was given, or a
    new one built by a comprehension. A heap of list objects, addressed by
    position, tells the two apart. *)

Abbreviation heap := (list (list dict)).

(** A new list object; its address is the next free one. *)
Definition alloc (l : list dict) (h : heap) : heap * nat :=
  (h ++ [l], length h).

(** One [if c: filtered = [e for e in filtered if p(e)]] step on the heap. *)
Definition filter_step (c : option string) (p : string -> dict -> result bool)
    (st : heap * nat) : result (heap * nat) :=
  match c with
  | Some s =>
      if truthy c
      then l ← comprehension (p s) (default [] (st.1 !! st.2));
           Ok (alloc l st.1)
      else Ok st
  | None => Ok st
  end.

Definition filter_exercises_heap (h : heap) (exercises : nat)
    (equipment level muscle : option string) : result (heap * nat) :=
  let filtered := (h, exercises) in
  filtered ← filter_step equipment
    (fun s e => Ok (eq_str (get e "equipment" JNull) s)) filtered;
  filtered ← filter_step level
    (fun s e => Ok (eq_str (get e "level" JNull) s)) filtered;
  filtered ← filter_step muscle
    (fun s e => py_in s (get e "primaryMuscles" (JList []))) filtered;
  Ok filtered.

(** ** The filter as the specification words it *)

(** The field [k] of [r] equals the criterion [c] exactly; an absent
    field equals nothing. *)
Definition field_equals (r : dict) (k c : string) : bool :=
  match dict_get k r with
  | Some (JStr s) => String.eqb s c
  | _ => false
  end.

(** [m] is an element of the [primaryMuscles] sequence of [r]; an absent
    field is the empty sequence. *)
Definition muscle_listed (r : dict) (m : string) : bool :=
  match dict_get "primaryMuscles" r with
  | Some (JList l) => existsb (fun x => eq_str x m) l
  | _ => false
  end.

(** A record satisfies all the criteria that are not null. *)
Definition retained_as_stated (equipment level muscle : option string)
    (r : dict) : bool :=
  match equipment with Some c => field_equals r "equipment" c | None => true end
  && match level with Some c => field_equals r "level" c | None => true end
  && match muscle with Some c => muscle_listed r c | None => true end.

(** A criterion counts as supplied when it is neither null nor empty. *)
Definition supplied (c : option string) : option string :=
  if truthy c then c else None.

Definition retained (equipment level muscle : option string) (r : dict)
  : bool :=
  retained_as_stated (supplied equipment) (supplied level) (supplied muscle) r.

(** The [primaryMuscles] field of [r] is a sequence, or absent. *)
Definition muscles_is_list (r : dict) : bool :=
  match dict_get "primaryMuscles" r with
  | None | Some (JList _) => true
  | Some _ => false
  end.

(** One guarded comprehension of [filter_exercises] on the list itself:
    [if c: l = [e for e in l if p(c, e)]]. *)
Definition guarded (c : option string) (p : string -> dict -> result bool)
    (l : list dict) : result (list dict) :=
  match c with
  | Some s => if truthy c then comprehension (p s) l else Ok l
  | None => Ok l
  end.

(** A record with an empty name, no equipment and no muscles. *)
Definition unnamed : dict :=
  [("id", JStr "3"); ("name", JStr ""); ("level", JStr "beginner");
   ("primaryMuscles", JList [])].

(** ** The lookup as the specification words it *)

(** [a] is a substring of [b]. *)
Definition substring (a b : string) : Prop :=
  exists p s, b = p +:+ a +:+ s.

(** The name the lookup reads: a missing [name] field is the empty str. *)
Definition name_of (r : dict) : string :=
  match dict_get "name" r with
  | Some (JStr s) => s
  | _ => ""
  end.

(** The [name] field of [r] is a str, or absent. *)
Definition name_is_str (r : dict) : bool :=
  match dict_get "name" r with
  | None | Some (JStr _) => true
  | Some _ => false
  end.

(** Case-insensitive substring match of the query [q] against the name. *)
Definition name_matches (q : string) (r : dict) : Prop :=
  substring (lower q) (lower (name_of r)).

Definition name_nonempty (r : dict) : bool :=
  negb (String.eqb (name_of r) "").

(** ** Worlds for the examples *)

(** The endpoint answers every request with [status] and the two records
    of the example; [can_write] tells whether files can be written. *)
Definition example_world (status : Z) (can_write : bool) : world :=
  {| net := fun _ => Responded {| status_code := status;
                                  body := Some [bench_press; dumbbell_fly] |};
     requests := [];
     writable := fun _ => can_write;
     files := ∅ |}.

(** The ten fields of the reduced record, scalars and sequences. *)
Definition scalar_fields : list string :=
  ["id"; "name"; "equipment"; "level"; "category"; "force"; "mechanic"].
Definition list_fields : list string :=
  ["primaryMuscles"; "secondaryMuscles"; "instructions"].

(** ** The analysis as the specification words it *)

(** The values of the field [k] in the records that have one that is not
    null, in dataset order. *)
Fixpoint field_values (k : string) (D : list dict) : list json :=
  match D with
  | [] => []
  | r :: D' =>
      match dict_get k r with
      | None | Some JNull => field_values k D'
      | Some v => v :: field_values k D'
      end
  end.

(** The [primaryMuscles] lists of all records, flattened into one
    sequence. *)
Fixpoint muscle_values (D : list dict) : list json :=
  match D with
  | [] => []
  | r :: D' =>
      match dict_get "primaryMuscles" r with
      | Some (JList ms) => ms ++ muscle_values D'
      | _ => muscle_values D'
      end
  end.

Definition not_null (v : json) : bool :=
  match v with
  | JNull => false
  | _ => true
  end.

(** The distinct values of [vs], in first-seen order. *)
Fixpoint first_seen (vs : list json) : list json :=
  match vs with
  | [] => []
  | v :: vs' => v :: List.filter (fun x => negb (key_eq v x)) (first_seen vs')
  end.

(** How many entries of [vs] are the value [k]. *)
Definition occurrences (k : json) (vs : list json) : nat :=
  length (List.filter (key_eq k) vs).

(** Every distinct value with its count, in first-seen order. *)
Definition count_table (vs : list json) : list (json * nat) :=
  map (fun k => (k, occurrences k vs)) (first_seen vs).

Definition with_count (c : nat) (x : json * nat) : bool := (x.2 =? c)%nat.

(** [t] is the breakdown of [vs]: a row for each distinct value with its
    count, the counts falling, and among the rows of one count the
    first-seen order. *)
Definition is_breakdown (vs : list json) (t : list (json * nat)) : Prop :=
  Permutation t (count_table vs)
  /\ StronglySorted (fun a b => b.2 <= a.2) t
  /\ forall c, List.filter (with_count c) t
               = List.filter (with_count c) (count_table vs).

(** Some record of the dataset has the field [k]. *)
Definition in_dataset (k : string) (D : list dict) : bool :=
  existsb (dict_has k) D.

(** A value that can be a key of the table of counts. *)
Definition hashable (v : json) : bool :=
  match v with
  | JList _ | JObj _ => false
  | _ => true
  end.

Definition muscles_of (r : dict) : list json :=
  match dict_get "primaryMuscles" r with
  | Some (JList ms) => ms
  | _ => []
  end.

(** A record the data model allows: no field is a nested object,
    [equipment] and [level] are no sequences, and the entries of
    [primaryMuscles] are neither sequences nor objects. *)
Definition analysable (r : dict) : bool :=
  forallb (fun kv => negb (is_dict kv.2)) r
  && hashable (get r "equipment" JNull)
  && hashable (get r "level" JNull)
  && forallb hashable (muscles_of r).

(** The key a value stands for in the table of counts: a number for a
    bool or a number, the str itself for a str. *)
Definition key_of (v : json) : option (Z + string) :=
  match v with
  | JBool b => Some (inl (Z.b2z b))
  | JNum n => Some (inl n)
  | JStr s => Some (inr s)
  | _ => None
  end.

(** A value that is counted: hashable and not null. *)
Definition keyable (v : json) : bool := hashable v && not_null v.

(** ** Further definitions: the filter on any data *)

#[global] Instance result_fmap : FMap result := fun A B f m =>
  match m with
  | Ok a => Ok (f a)
  | Raise e => Raise e
  end.

(** The values [s in v] raises on. *)
Definition not_container (v : json) : bool :=
  match v with
  | JNull | JBool _ | JNum _ => true
  | _ => false
  end.

(** What [filter_exercises] reads as the muscles of [r]. *)
Definition muscles_read (r : dict) : json := get r "primaryMuscles" (JList []).

(** [m in muscles_read r] where that does not raise: element of a list,
    substring of a str, key of a dict. *)
Definition muscle_in (m : string) (r : dict) : bool :=
  match muscles_read r with
  | JList l => existsb (fun x => eq_str x m) l
  | JStr s => str_in m s
  | JObj kvs => dict_has m kvs
  | _ => false
  end.

(** The records that pass the equipment and level criteria. *)
Definition fields_pass (equipment level : option string) (r : dict) : bool :=
  retained equipment level None r.

(** How many of the three criteria are applied. *)
Definition applied (equipment level muscle : option string) : nat :=
  Nat.b2n (truthy equipment) + Nat.b2n (truthy level)
  + Nat.b2n (truthy muscle).

(** A record whose [primaryMuscles] is a str, not a list. *)
Definition muscles_as_str : dict :=
  [("id", JStr "4"); ("name", JStr "Push Up"); ("equipment", JStr "body only");
   ("primaryMuscles", JStr "chest")].

(** A record whose [primaryMuscles] is null. *)
Definition muscles_null : dict :=
  [("id", JStr "5"); ("name", JStr "Plank"); ("equipment", JStr "body only");
   ("primaryMuscles", JNull)].

(** ** Further definitions: the lookup on any data *)

(** What [get_exercise_by_name] reads as the name of [r]. *)
Definition name_read (r : dict) : json := get r "name" (JStr "").

(** The name read is no str: [.lower()] raises on it. *)
Definition name_bad (r : dict) : bool :=
  match name_read r with
  | JStr _ => false
  | _ => true
  end.

(** The name read is a str that contains the query, case ignored. *)
Definition name_hit (q : string) (r : dict) : bool :=
  match name_read r with
  | JStr s => str_in (lower q) (lower s)
  | _ => false
  end.

(** A record whose [name] is null. *)
Definition name_null : dict := [("id", JStr "6"); ("name", JNull)].

(** ** The script under [if __name__ == "__main__"] *)

(** [len(v)]: defined on a list, a str and a dict. *)
Definition py_len (v : json) : result nat :=
  match v with
  | JList l => Ok (length l)
  | JStr s => Ok (String.length s)
  | JObj kvs => Ok (length kvs)
  | JNull | JBool _ | JNum _ => Raise TypeError
  end.

(** What ends the script early: an exception of a method, or the
    [KeyError] of a subscript. *)
Inductive script_exn : Type :=
| Propagated (e : exn)
| KeyError.

(** The numbers and the name the script prints of its queries: the sizes
    of the three example filters and, when the lookup found a record, its
    name and the number of its instructions. *)
Record summary : Type := {
  dumbbell_count : nat;
  beginner_count : nat;
  chest_count : nat;
  bench_press_found : option (json * nat)
}.

(** The three example filters and the lengths printed. *)
Definition example_filters (exercises : list dict)
  : result (nat * nat * nat) :=
  dumbbell_exercises ← filter_exercises exercises (Some "dumbbell") None None;
  beginner_exercises ← filter_exercises exercises None (Some "beginner") None;
  chest_exercises ← filter_exercises exercises None None (Some "chest");
  Ok (length dumbbell_exercises, length beginner_exercises,
      length chest_exercises).

(** [if bench_press:] and the two prints under it: [None] and the empty
    dict are false; [bench_press['name']] raises [KeyError] without the
    key. *)
Definition describe (bench_press : option dict)
  : (option (json * nat) + script_exn)%type :=
  match bench_press with
  | None | Some [] => inl None
  | Some d =>
      match dict_get "name" d with
      | None => inr KeyError
      | Some name =>
          match py_len (get d "instructions" (JList [])) with
          | Ok steps => inl (Some (name, steps))
          | Raise e => inr (Propagated e)
          end
      end
  end.

(** The script: fetch, analyse, filter, look up, export; the first
    exception ends it. *)
Definition main (w : world) : (summary + script_exn)%type * world :=
  let fetcher := new_fetcher "exercise_data" in
  match fetch_github_exercises fetcher w with
  | (Raise e, w1) => (inr (Propagated e), w1)
  | (Ok exercises, w1) =>
      match analyze_exercises exercises with
      | Raise e => (inr (Propagated e), w1)
      | Ok df =>
          match example_filters exercises with
          | Raise e => (inr (Propagated e), w1)
          | Ok (dumbbell, beginner, chest) =>
              match get_exercise_by_name exercises "bench press" with
              | Raise e => (inr (Propagated e), w1)
              | Ok bench_press =>
                  match describe bench_press with
                  | inr x => (inr x, w1)
                  | inl found =>
                      match export_for_gymmando fetcher exercises
                              "gymmando_exercises.json" w1 with
                      | (Raise e, w2) => (inr (Propagated e), w2)
                      | (Ok _, w2) =>
                          (inl {| dumbbell_count := dumbbell;
                                  beginner_count := beginner;
                                  chest_count := chest;
                                  bench_press_found := found |}, w2)
                      end
                  end
              end
          end
      end
  end.

(** The three files of a run in the default directory. *)
Definition raw_json_path : string :=
  path_join "exercise_data" "github_exercises.json".
Definition raw_csv_path : string :=
  path_join "exercise_data" "github_exercises.csv".
Definition gymmando_path : string :=
  path_join "exercise_data" "gymmando_exercises.json".

(** The sum of the counts of a table. *)
Definition total_count (t : list (json * nat)) : nat :=
  list_sum (map snd t).

(** * Properties *)

(** ** The result monad *)

Ltac simpl_result :=
  cbn [mbind mret result_bind result_ret] in *.

Lemma comprehension_total {A} (f : A -> bool) (l : list A) :
  comprehension (fun e => Ok (f e)) l = Ok (List.filter f l).
Proof.
  induction l as [|x l IH]; [reflexivity|].
  cbn [comprehension List.filter]. simpl_result. rewrite IH. simpl_result.
  reflexivity.
Qed.

Lemma comprehension_ext {A} (p : A -> result bool) (f : A -> bool)
    (l : list A) :
  Forall (fun x => p x = Ok (f x)) l ->
  comprehension p l = Ok (List.filter f l).
Proof.
  induction 1 as [|x l Hx _ IH]; [reflexivity|].
  cbn [comprehension List.filter]. rewrite Hx, IH. simpl_result.
  reflexivity.
Qed.

Lemma comprehension_sublist {A} (p : A -> result bool) (l l' : list A) :
  comprehension p l = Ok l' -> sublist l' l.
Proof.
  revert l'. induction l as [|x l IH]; intros l' H.
  - injection H as <-. constructor.
  - cbn [comprehension] in H. destruct (p x) as [b|e]; [|discriminate].
    simpl_result. destruct (comprehension p l) as [rest|e]; [|discriminate].
    simpl_result. injection H as <-.
    destruct b; [apply sublist_skip | apply sublist_cons]; apply IH;
      reflexivity.
Qed.

Lemma filter_filter {A} (f g : A -> bool) (l : list A) :
  List.filter g (List.filter f l) = List.filter (fun x => f x && g x) l.
Proof.
  induction l as [|x l IH]; [reflexivity|].
  cbn [List.filter]. destruct (f x); cbn [List.filter andb]; rewrite IH;
    reflexivity.
Qed.

Lemma filter_true {A} (l : list A) : List.filter (fun _ => true) l = l.
Proof. induction l as [|x l IH]; [reflexivity|]. cbn. by rewrite IH. Qed.

Lemma eq_str_iff (v : json) (s : string) : eq_str v s = true <-> v = JStr s.
Proof.
  destruct v; cbn; try (split; [discriminate|congruence]).
  rewrite String.eqb_eq. split; congruence.
Qed.

(** ** [filter_exercises] *)

(** One guarded comprehension, as a function of the list alone. *)
Lemma field_step (k : string) (c : option string) (l : list dict) :
  match c with
  | Some s =>
      if truthy c
      then comprehension (fun e => Ok (eq_str (get e k JNull) s)) l
      else Ok l
  | None => Ok l
  end
  = Ok (List.filter
          (fun r => match supplied c with
                    | Some s => field_equals r k s
                    | None => true
                    end) l).
Proof.
  unfold supplied. destruct c as [s|]; [|by rewrite filter_true].
  destruct (truthy (Some s)); [|by rewrite filter_true].
  rewrite comprehension_total. f_equal. apply filter_ext. intros r.
  unfold field_equals, get. destruct (dict_get k r) as [[]|]; reflexivity.
Qed.

Lemma muscle_step (c : option string) (l : list dict) :
  forallb muscles_is_list l = true ->
  match c with
  | Some m =>
      if truthy c
      then comprehension (fun e => py_in m (get e "primaryMuscles" (JList []))) l
      else Ok l
  | None => Ok l
  end
  = Ok (List.filter
          (fun r => match supplied c with
                    | Some m => muscle_listed r m
                    | None => true
                    end) l).
Proof.
  intros Hl. unfold supplied. destruct c as [m|]; [|by rewrite filter_true].
  destruct (truthy (Some m)); [|by rewrite filter_true].
  apply comprehension_ext. rewrite forallb_forall in Hl.
  apply List.Forall_forall. intros r Hr. specialize (Hl r Hr).
  unfold muscles_is_list, muscle_listed, get in *.
  destruct (dict_get "primaryMuscles" r) as [[]|]; try discriminate;
    reflexivity.
Qed.

Lemma forallb_filter {A} (p f : A -> bool) (l : list A) :
  forallb p l = true -> forallb p (List.filter f l) = true.
Proof.
  rewrite !forallb_forall. intros H x Hx. apply filter_In in Hx. apply H, Hx.
Qed.

Lemma filter_exercises_typed (D : list dict) (e l m : option string) :
  forallb muscles_is_list D = true ->
  filter_exercises D e l m = Ok (List.filter (retained e l m) D).
Proof.
  intros HD. unfold filter_exercises.
  rewrite (field_step "equipment"). simpl_result.
  rewrite (field_step "level"). simpl_result.
  rewrite muscle_step by (do 2 apply forallb_filter; exact HD).
  simpl_result. rewrite !filter_filter. f_equal. apply filter_ext.
  intros r. unfold retained, retained_as_stated. by rewrite andb_assoc.
Qed.

Lemma filter_exercises_guarded (D : list dict) (e l m : option string) :
  filter_exercises D e l m =
    (f1 ← guarded e (fun s r => Ok (eq_str (get r "equipment" JNull) s)) D;
     f2 ← guarded l (fun s r => Ok (eq_str (get r "level" JNull) s)) f1;
     guarded m (fun s r => py_in s (get r "primaryMuscles" (JList []))) f2).
Proof.
  unfold filter_exercises, guarded, mbind, result_bind.
  destruct e, l, m;
    repeat match goal with
           | |- context [if ?b then _ else _] => destruct b
           | |- context [match ?x with Ok _ => _ | Raise _ => _ end] =>
               destruct x
           end; reflexivity.
Qed.

(** ** List objects: the heap version refines the pure one *)

Lemma filter_step_refines (c : option string)
    (p : string -> dict -> result bool) (h : heap) (a : nat) (L : list dict) :
  h !! a = Some L ->
  match guarded c p L with
  | Ok L' => exists h' a',
      filter_step c p (h, a) = Ok (h', a')
      /\ h `prefix_of` h' /\ h' !! a' = Some L'
      /\ (truthy c = false -> h' = h /\ a' = a)
  | Raise x => filter_step c p (h, a) = Raise x
  end.
Proof.
  intros Ha. unfold guarded, filter_step. cbn [fst snd]. rewrite Ha.
  cbn [default from_option id].
  destruct c as [s|]; [destruct (truthy (Some s)) eqn:Ht|].
  - destruct (comprehension (p s) L) as [L'|x]; simpl_result; [|reflexivity].
    exists (h ++ [L']), (length h). repeat split.
    + by apply prefix_app_r.
    + by apply list_lookup_middle.
    + discriminate.
    + discriminate.
  - exists h, a. by repeat split.
  - exists h, a. by repeat split.
Qed.

Lemma filter_exercises_heap_refines (h : heap) (a : nat) (D : list dict)
    (e l m : option string) :
  h !! a = Some D ->
  match filter_exercises D e l m with
  | Ok out => exists h' a',
      filter_exercises_heap h a e l m = Ok (h', a')
      /\ h `prefix_of` h' /\ h' !! a' = Some out
      /\ (truthy e = false -> truthy l = false -> truthy m = false ->
          h' = h /\ a' = a)
  | Raise x => filter_exercises_heap h a e l m = Raise x
  end.
Proof.
  intros Ha. rewrite filter_exercises_guarded. unfold filter_exercises_heap.
  pose proof (filter_step_refines e
    (fun s r => Ok (eq_str (get r "equipment" JNull) s)) h a D Ha) as H1.
  destruct (guarded e _ D) as [f1|x]; simpl_result;
    [|rewrite H1; reflexivity].
  destruct H1 as (h1 & a1 & -> & Hp1 & Ha1 & Hid1). simpl_result.
  pose proof (filter_step_refines l
    (fun s r => Ok (eq_str (get r "level" JNull) s)) h1 a1 f1 Ha1) as H2.
  destruct (guarded l _ f1) as [f2|x]; simpl_result;
    [|rewrite H2; reflexivity].
  destruct H2 as (h2 & a2 & -> & Hp2 & Ha2 & Hid2). simpl_result.
  pose proof (filter_step_refines m
    (fun s r => py_in s (get r "primaryMuscles" (JList []))) h2 a2 f2 Ha2)
    as H3.
  destruct (guarded m _ f2) as [f3|x]; simpl_result;
    [|rewrite H3; reflexivity].
  destruct H3 as (h3 & a3 & -> & Hp3 & Ha3 & Hid3). simpl_result.
  exists h3, a3. split; [reflexivity|]. split; [|split; [assumption|]].
  - by repeat (etrans; [eassumption|]).
  - intros He Hl Hm.
    destruct (Hid3 Hm) as [-> ->], (Hid2 Hl) as [-> ->],
      (Hid1 He) as [-> ->]. by split.
Qed.

Lemma comprehension_raise {A} (p : A -> result bool) (l : list A) (x : exn) :
  comprehension p l = Raise x -> exists y, In y l /\ p y = Raise x.
Proof.
  induction l as [|y l IH]; [discriminate|].
  cbn [comprehension]. destruct (p y) as [b|e] eqn:Hy; simpl_result.
  - destruct (comprehension p l) as [rest|e]; simpl_result; [discriminate|].
    intros [= ->]. destruct IH as (z & Hz & Hp); [reflexivity|].
    exists z. split; [by right | exact Hp].
  - intros [= ->]. exists y. split; [by left | exact Hy].
Qed.

Lemma py_in_raise (s : string) (v : json) (x : exn) :
  py_in s v = Raise x -> x = TypeError.
Proof. destruct v; cbn; congruence. Qed.

Lemma filter_exercises_raises (D : list dict) (e l m : option string)
    (x : exn) :
  filter_exercises D e l m = Raise x ->
  x = TypeError /\ forallb muscles_is_list D = false.
Proof.
  intros H. split.
  - unfold filter_exercises in H.
    rewrite (field_step "equipment") in H. simpl_result.
    rewrite (field_step "level") in H. simpl_result.
    destruct m as [s|]; [|discriminate].
    destruct (truthy (Some s)); [|discriminate].
    match type of H with
    | context [comprehension ?p ?l] =>
        destruct (comprehension p l) as [out|y] eqn:Hc
    end; simpl_result; [discriminate|].
    injection H as ->. apply comprehension_raise in Hc as (r & _ & Hr).
    by apply py_in_raise in Hr.
  - destruct (forallb muscles_is_list D) eqn:HD; [|reflexivity].
    rewrite filter_exercises_typed in H by exact HD. discriminate.
Qed.

Lemma filter_exercises_sublist (D out : list dict) (e l m : option string) :
  filter_exercises D e l m = Ok out -> sublist out D.
Proof.
  rewrite filter_exercises_guarded. unfold guarded.
  intros H.
  assert (Hstep : forall c p (l1 l2 : list dict),
             match c with
             | Some s => if truthy c then comprehension (p s) l1 else Ok l1
             | None => Ok l1
             end = Ok l2 -> sublist l2 l1).
  { intros c p l1 l2 Hc. destruct c as [s|].
    - destruct (truthy (Some s)).
      + eapply comprehension_sublist, Hc.
      + by injection Hc as <-.
    - by injection Hc as <-. }
  match type of H with
  | mbind _ ?a = _ => destruct a as [f1|] eqn:H1
  end; simpl_result; [|discriminate].
  match type of H with
  | mbind _ ?a = _ => destruct a as [f2|] eqn:H2
  end; simpl_result; [|discriminate].
  apply Hstep in H1, H2, H. by repeat (etrans; [eassumption|]).
Qed.

(** C1 (amended). For every dataset whose [primaryMuscles] fields are
    sequences where present, and every combination of criteria, where a
    criterion counts as supplied when it is neither null nor the empty
    string: [filter_exercises] returns exactly the records that satisfy all
    supplied criteria, in order. A record is retained iff its [equipment]
    field is the str of the equipment criterion, its [level] field is the
    str of the level criterion, and the muscle criterion is an element of
    its [primaryMuscles] list; an absent [equipment] or [level] field
    matches no criterion, and an absent [primaryMuscles] is the empty
    sequence and matches none. *)
Theorem filter_exercises_retains (D : list dict)
    (equipment level muscle : option string) :
  forallb muscles_is_list D = true ->
  filter_exercises D equipment level muscle
    = Ok (List.filter (retained equipment level muscle) D)
  /\ (forall r, r ∈ List.filter (retained equipment level muscle) D <->
                r ∈ D /\ retained equipment level muscle r = true)
  /\ (forall r, retained equipment level muscle r = true <->
        (forall c, supplied equipment = Some c ->
                   dict_get "equipment" r = Some (JStr c))
        /\ (forall c, supplied level = Some c ->
                      dict_get "level" r = Some (JStr c))
        /\ (forall c, supplied muscle = Some c ->
              exists ms, dict_get "primaryMuscles" r = Some (JList ms)
                         /\ JStr c ∈ ms))
  /\ (forall r c, dict_get "equipment" r = None ->
                  field_equals r "equipment" c = false)
  /\ (forall r c, dict_get "level" r = None ->
                  field_equals r "level" c = false)
  /\ (forall r c, dict_get "primaryMuscles" r = None ->
                  muscle_listed r c = false).
Proof.
  intros HD. split; [by apply filter_exercises_typed|].
  split; [|split; [|repeat split]].
  - intros r. rewrite !list_elem_of_In. apply filter_In.
  - intros r. unfold retained, retained_as_stated.
    rewrite !andb_true_iff.
    assert (Hf : forall k c, field_equals r k c = true <->
                             dict_get k r = Some (JStr c)).
    { intros k c. unfold field_equals.
      destruct (dict_get k r) as [[]|]; try (split; [discriminate|congruence]).
      rewrite String.eqb_eq. split; congruence. }
    assert (Hm : forall c, muscle_listed r c = true <->
              exists ms, dict_get "primaryMuscles" r = Some (JList ms)
                         /\ JStr c ∈ ms).
    { intros c. unfold muscle_listed.
      destruct (dict_get "primaryMuscles" r) as [[]|];
        try (split; [discriminate | by intros (ms & [=] & _)]).
      rewrite existsb_exists. split.
      - intros (v & Hv & Heq). apply eq_str_iff in Heq as ->.
        eexists. split; [reflexivity|]. by apply list_elem_of_In.
      - intros (ms & [= <-] & Hin). exists (JStr c).
        split; [by apply list_elem_of_In | by apply eq_str_iff]. }
    destruct (supplied equipment) as [ce|], (supplied level) as [cl|],
      (supplied muscle) as [cm|];
      rewrite ?Hf, ?Hm; split;
      try (intros [[? ?] ?]; repeat split; intros ? [= <-]; assumption);
      try (intros (He & Hl & Hmu); repeat split;
           try (by apply He); try (by apply Hl); try (by apply Hmu)).
  - intros r c Hr. unfold field_equals. by rewrite Hr.
  - intros r c Hr. unfold field_equals. by rewrite Hr.
  - intros r c Hr. unfold muscle_listed. by rewrite Hr.
Qed.

Lemma filter_exercises_retains_witness :
  forallb muscles_is_list [bench_press; dumbbell_fly; unnamed] = true
  /\ filter_exercises [bench_press; dumbbell_fly; unnamed]
       (Some "dumbbell") None (Some "chest")
     = Ok [dumbbell_fly].
Proof.
  split; [reflexivity|].
  exact (proj1 (filter_exercises_retains [bench_press; dumbbell_fly; unnamed]
                  (Some "dumbbell") None (Some "chest") eq_refl)).
Defined.

(** C1 as stated fails for the empty-string criterion, which is not null:
    the claim retains the records whose [equipment] equals [""], neither
    of the two here; the method returns both, the second having no
    [equipment] field at all. *)
Lemma filter_exercises_empty_criterion_counterexample :
  filter_exercises [bench_press; unnamed] (Some "") None None
    = Ok [bench_press; unnamed]
  /\ List.filter (retained_as_stated (Some "") None None)
       [bench_press; unnamed] = []
  /\ dict_get "equipment" unnamed = None
  /\ ~ (forall (D : list dict) (equipment level muscle : option string),
          forallb muscles_is_list D = true ->
          filter_exercises D equipment level muscle
            = Ok (List.filter (retained_as_stated equipment level muscle) D)).
Proof.
  repeat split; try reflexivity.
  intros H. specialize (H [bench_press; unnamed] (Some "") None None eq_refl).
  discriminate H.
Qed.

(** C2. For every dataset and every combination of criteria, what
    [filter_exercises] returns is a subsequence of the dataset: its records
    are records of the dataset, in the same relative order. The method
    leaves the list object it was given as it is: every list object on the
    heap before the call is there, unchanged, after it, and the result is
    the given object or a new one. The only way not to return is a
    [TypeError] from a [primaryMuscles] field that is no container. *)
Theorem filter_exercises_subsequence (D : list dict)
    (equipment level muscle : option string) (h1 h2 : heap) :
  let h := h1 ++ D :: h2 in
  match filter_exercises D equipment level muscle with
  | Ok out =>
      sublist out D
      /\ (forall r, r ∈ out -> r ∈ D)
      /\ exists h' a',
           filter_exercises_heap h (length h1) equipment level muscle
             = Ok (h', a')
           /\ h `prefix_of` h'
           /\ h' !! length h1 = Some D
           /\ h' !! a' = Some out
  | Raise x => x = TypeError /\ forallb muscles_is_list D = false
  end.
Proof.
  intros h.
  assert (Ha : h !! length h1 = Some D) by by apply list_lookup_middle.
  pose proof (filter_exercises_heap_refines h (length h1) D
                equipment level muscle Ha) as Hr.
  destruct (filter_exercises D equipment level muscle) as [out|x] eqn:Hf.
  - pose proof (filter_exercises_sublist _ _ _ _ _ Hf) as Hs.
    split; [exact Hs|]. split.
    + intros r Hr'. by eapply sublist_subseteq.
    + destruct Hr as (h' & a' & Hh & Hp & Hout & _).
      exists h', a'. repeat split; try assumption.
      eapply prefix_lookup_Some; eassumption.
  - by apply filter_exercises_raises in Hf.
Qed.

Lemma filter_exercises_subsequence_witness :
  sublist [dumbbell_fly] [bench_press; dumbbell_fly]
  /\ (forall r, r ∈ [dumbbell_fly] -> r ∈ [bench_press; dumbbell_fly]).
Proof.
  pose proof (filter_exercises_subsequence [bench_press; dumbbell_fly]
                (Some "dumbbell") None None [] []) as H.
  change (filter_exercises [bench_press; dumbbell_fly]
            (Some "dumbbell") None None)
    with (Ok [dumbbell_fly]) in H.
  destruct H as (Hs & Hin & _). by split.
Defined.

(** C7. With no criterion supplied [filter_exercises] returns its argument
    unchanged: the same records, and on the heap the same list object. *)
Theorem filter_exercises_identity (D : list dict) (h : heap) (a : nat) :
  filter_exercises D None None None = Ok D
  /\ filter_exercises_heap h a None None None = Ok (h, a).
Proof. split; reflexivity. Qed.

(** C8. Filtering by the same equipment criterion twice gives what
    filtering once gives. *)
Theorem filter_exercises_idempotent (D : list dict) (E : option string) :
  exists out,
    filter_exercises D E None None = Ok out
    /\ filter_exercises out E None None = Ok out.
Proof.
  exists (List.filter (fun r => match supplied E with
                                | Some s => field_equals r "equipment" s
                                | None => true
                                end) D).
  unfold filter_exercises. rewrite !(field_step "equipment"). simpl_result.
  split; [reflexivity|]. f_equal. rewrite filter_filter.
  apply filter_ext. intros r. apply andb_diag.
Qed.

(** C10. An empty-string criterion acts as a criterion that is not
    supplied: the result is the one obtained with the criterion left out,
    and with nothing else supplied every record of the dataset comes back,
    also a record whose field is the empty string. *)
Theorem filter_exercises_empty_string_unsupplied (D : list dict)
    (equipment level muscle : option string) :
  filter_exercises D (Some "") level muscle
    = filter_exercises D None level muscle
  /\ filter_exercises D equipment (Some "") muscle
     = filter_exercises D equipment None muscle
  /\ filter_exercises D equipment level (Some "")
     = filter_exercises D equipment level None
  /\ filter_exercises D (Some "") None None = Ok D
  /\ filter_exercises D None (Some "") None = Ok D
  /\ filter_exercises D None None (Some "") = Ok D
  /\ filter_exercises ([("equipment", JStr "")] :: D) (Some "") None None
     = Ok ([("equipment", JStr "")] :: D).
Proof. repeat split; reflexivity. Qed.

(** ** Strings *)

Lemma append_cons (c : ascii) (a s : string) :
  String c a +:+ s = String c (a +:+ s).
Proof. reflexivity. Qed.

Lemma prefix_spec (a b : string) :
  String.prefix a b = true <-> exists s, b = a +:+ s.
Proof.
  revert b. induction a as [|c a IH]; intros b.
  - split; [intros _; by exists b | by destruct b].
  - destruct b as [|c' b]; cbn; [split; [discriminate | by intros [s [=]]]|].
    destruct (Ascii.ascii_dec c c') as [<-|Hne].
    + rewrite IH.
      split; intros [s Hs]; exists s; rewrite append_cons in *; congruence.
    + split; [discriminate|].
      intros [s Hs]. rewrite append_cons in Hs. congruence.
Qed.

Lemma str_in_spec (a b : string) : str_in a b = true <-> substring a b.
Proof.
  unfold substring. induction b as [|c b IH]; cbn [str_in].
  - rewrite orb_false_r, prefix_spec. split.
    + intros [s Hs]. by exists "", s.
    + intros (p & s & Hps). destruct p; [by exists s|discriminate].
  - rewrite orb_true_iff, prefix_spec, IH. split.
    + intros [[s Hs]|(p & s & Hps)].
      * by exists "", s.
      * exists (String c p), s. by rewrite append_cons, Hps.
    + intros (p & s & Hps). destruct p as [|c' p].
      * left. by exists s.
      * right. rewrite append_cons in Hps. injection Hps as -> Hb.
        by exists p, s.
Qed.

Lemma substring_empty_l (b : string) : substring "" b.
Proof. by exists "", b. Qed.

Lemma substring_empty_r (a : string) : substring a "" -> a = "".
Proof.
  intros (p & s & H). destruct p; [|discriminate].
  destruct a; [reflexivity|discriminate].
Qed.

Lemma lower_empty (s : string) : lower s = "" -> s = "".
Proof. destruct s; [reflexivity|discriminate]. Qed.

(** ** [get_exercise_by_name] *)

Lemma get_name_typed (r : dict) :
  name_is_str r = true ->
  str_lower (get r "name" (JStr "")) = Ok (lower (name_of r)).
Proof.
  unfold name_is_str, name_of, get.
  destruct (dict_get "name" r) as [[]|]; try discriminate; reflexivity.
Qed.

Lemma get_exercise_by_name_find (D : list dict) (q : string) :
  forallb name_is_str D = true ->
  get_exercise_by_name D q
    = Ok (List.find (fun r => str_in (lower q) (lower (name_of r))) D).
Proof.
  unfold get_exercise_by_name. induction D as [|r D IH]; [reflexivity|].
  cbn [forallb]. rewrite andb_true_iff. intros [Hr HD].
  cbn [get_exercise_by_name_loop List.find]. rewrite (get_name_typed r Hr).
  simpl_result. destruct (str_in _ _); [reflexivity | by apply IH].
Qed.

Lemma find_first {A} (f : A -> bool) (l : list A) (x : A) :
  List.find f l = Some x <->
  exists l1 l2, l = l1 ++ x :: l2 /\ f x = true
                /\ Forall (fun y => f y = false) l1.
Proof.
  induction l as [|y l IH]; cbn [List.find].
  - split; [discriminate|]. intros (l1 & l2 & H & _). by destruct l1.
  - destruct (f y) eqn:Hy.
    + split.
      * intros [= ->]. by exists [], l.
      * intros (l1 & l2 & H & Hx & Hl1). destruct l1 as [|z l1].
        -- by injection H as ->.
        -- injection H as -> _. apply Forall_cons in Hl1 as [Hz _].
           congruence.
    + rewrite IH. split.
      * intros (l1 & l2 & -> & Hx & Hl1). exists (y :: l1), l2.
        repeat split; [assumption | by constructor].
      * intros (l1 & l2 & H & Hx & Hl1). destruct l1 as [|z l1].
        -- injection H as -> _. congruence.
        -- injection H as -> ->. apply Forall_cons in Hl1 as [_ Hl1].
           by exists l1, l2.
Qed.

Lemma find_none {A} (f : A -> bool) (l : list A) :
  List.find f l = None <-> Forall (fun y => f y = false) l.
Proof.
  induction l as [|y l IH]; cbn [List.find]; [by split|].
  rewrite Forall_cons. destruct (f y); [by split; [|intros []]|].
  rewrite IH. tauto.
Qed.

Lemma str_in_false (a b : string) : str_in a b = false <-> ~ substring a b.
Proof. rewrite <- str_in_spec. by destruct (str_in a b). Qed.

(** C3. On a dataset whose [name] fields are strs where present,
    [get_exercise_by_name] returns the first record, in dataset order,
    whose lower-cased name contains the lower-cased query, a missing name
    being the empty str, which contains no query but the empty one. When
    no record matches, and so on the empty dataset, it returns [None] as a
    value and raises nothing. *)
Theorem get_exercise_by_name_first_match (D : list dict) (q : string) :
  forallb name_is_str D = true ->
  (forall r, get_exercise_by_name D q = Ok (Some r) <->
     exists l1 l2, D = l1 ++ r :: l2 /\ name_matches q r
                   /\ Forall (fun r' => ~ name_matches q r') l1)
  /\ (get_exercise_by_name D q = Ok None <->
      Forall (fun r => ~ name_matches q r) D)
  /\ (exists o, get_exercise_by_name D q = Ok o)
  /\ (forall r, dict_get "name" r = None -> q <> "" -> ~ name_matches q r)
  /\ get_exercise_by_name [] q = Ok None.
Proof.
  intros HD. rewrite (get_exercise_by_name_find D q HD).
  split; [|split; [|split; [|split]]].
  - intros r. split.
    + intros [= H]. apply find_first in H as (l1 & l2 & -> & Hr & Hl1).
      exists l1, l2. split; [reflexivity|].
      split; [by apply str_in_spec|].
      eapply Forall_impl; [exact Hl1|]. intros r'. apply str_in_false.
    + intros (l1 & l2 & HDeq & Hr & Hl1). f_equal. apply find_first.
      exists l1, l2. split; [exact HDeq|].
      split; [by apply str_in_spec|].
      eapply Forall_impl; [exact Hl1|]. intros r'. apply str_in_false.
  - split.
    + intros [= H]. apply find_none in H.
      eapply Forall_impl; [exact H|]. intros r. apply str_in_false.
    + intros H. f_equal. apply find_none.
      eapply Forall_impl; [exact H|]. intros r. apply str_in_false.
  - by eexists.
  - intros r Hr Hq Hm. unfold name_matches, name_of in Hm. rewrite Hr in Hm.
    apply substring_empty_r, lower_empty in Hm. contradiction.
  - reflexivity.
Qed.

Lemma get_exercise_by_name_first_match_witness :
  forallb name_is_str [unnamed; bench_press; dumbbell_fly] = true
  /\ exists o,
       get_exercise_by_name [unnamed; bench_press; dumbbell_fly] "BENCH"
       = Ok o.
Proof.
  split; [reflexivity|].
  exact (proj1 (proj2 (proj2
           (get_exercise_by_name_first_match
              [unnamed; bench_press; dumbbell_fly] "BENCH" eq_refl)))).
Defined.

(** C5 as stated fails: with the empty query the lookup returns the
    first record, whose name is empty; the first record whose name is not
    empty is the second. *)
Lemma get_exercise_by_name_empty_query_counterexample :
  get_exercise_by_name [unnamed; bench_press] "" = Ok (Some unnamed)
  /\ dict_get "name" unnamed = Some (JStr "")
  /\ List.find name_nonempty [unnamed; bench_press] = Some bench_press
  /\ ~ (forall D : list dict,
          forallb name_is_str D = true ->
          get_exercise_by_name D "" = Ok (List.find name_nonempty D)).
Proof.
  repeat split; try reflexivity.
  intros H. specialize (H [unnamed; bench_press] eq_refl). discriminate H.
Qed.

(** C5 (amended). With the empty-string query [get_exercise_by_name]
    returns the first record of the dataset, whatever its name, provided
    the [name] of that record is a str or absent; on the empty dataset it
    returns [None]. *)
Theorem get_exercise_by_name_empty_query (D : list dict) :
  forallb name_is_str (take 1 D) = true ->
  get_exercise_by_name D "" = Ok (head D).
Proof.
  destruct D as [|r D]; [reflexivity|].
  cbn [take forallb]. rewrite andb_true_r. intros Hr.
  unfold get_exercise_by_name. cbn [get_exercise_by_name_loop lower].
  rewrite (get_name_typed r Hr). simpl_result.
  by destruct (lower (name_of r)).
Qed.

Lemma get_exercise_by_name_empty_query_witness :
  forallb name_is_str (take 1 [unnamed; bench_press]) = true
  /\ get_exercise_by_name [unnamed; bench_press] "" = Ok (Some unnamed).
Proof.
  split; [reflexivity|].
  exact (get_exercise_by_name_empty_query [unnamed; bench_press] eq_refl).
Defined.

(** ** [export_for_gymmando] *)

Lemma gymmando_format_map (D : list dict) :
  gymmando_format D = map simplified D.
Proof.
  unfold gymmando_format.
  assert (H : forall acc,
             fold_left (fun acc ex => acc ++ [simplified ex]) D acc
             = acc ++ map simplified D); [|apply H].
  induction D as [|r D IH]; intros acc; cbn [fold_left map].
  - by rewrite app_nil_r.
  - by rewrite IH, <- app_assoc.
Qed.

Lemma gymmando_format_length (D : list dict) :
  length (gymmando_format D) = length D.
Proof. by rewrite gymmando_format_map, length_map. Qed.

Lemma gymmando_format_lookup (D : list dict) (i : nat) :
  gymmando_format D !! i = simplified <$> D !! i.
Proof.
  rewrite gymmando_format_map. revert i.
  induction D as [|r D IH]; intros [|i]; try reflexivity. apply IH.
Qed.

(** C4. The list [export_for_gymmando] builds has the length of the
    dataset; its i-th record is the projection of the i-th record of the
    dataset onto exactly the ten fields id, name, equipment, level,
    primaryMuscles, secondaryMuscles, instructions, category, force,
    mechanic; an absent list field becomes the empty sequence and an
    absent scalar field becomes null. The method returns that list once
    the file is written. *)
Theorem gymmando_format_projection (D : list dict) (self : fetcher)
    (output_file : string) (w : world) :
  length (gymmando_format D) = length D
  /\ (forall i, gymmando_format D !! i = simplified <$> D !! i)
  /\ (forall r,
        map fst (simplified r)
          = ["id"; "name"; "equipment"; "level"; "primaryMuscles";
             "secondaryMuscles"; "instructions"; "category"; "force";
             "mechanic"]
        /\ Forall (fun k => dict_get k (simplified r)
                            = Some match dict_get k r with
                                   | Some v => v
                                   | None => JNull
                                   end) scalar_fields
        /\ Forall (fun k => dict_get k (simplified r)
                            = Some match dict_get k r with
                                   | Some v => v
                                   | None => JList []
                                   end) list_fields)
  /\ (export_for_gymmando self D output_file w).1
     = if writable w (path_join (output_dir self) output_file)
       then Ok (gymmando_format D)
       else Raise OSError.
Proof.
  split; [apply gymmando_format_length|].
  split; [apply gymmando_format_lookup|]. split.
  - intros r. split; [reflexivity|].
    split; repeat constructor.
  - unfold export_for_gymmando, mbind, io_bind, write_file.
    by destruct (writable w _).
Qed.

(** ** [fetch_github_exercises] *)

Lemma fetch_github_exercises_run (self : fetcher) (w : world) :
  fetch_github_exercises self w =
    let w1 := with_request (github_url self) w in
    match net w (length (requests w)) with
    | NoResponse => (Raise TransportError, w1)
    | Responded r =>
        if ((200 <=? status_code r) && (status_code r <? 300))%Z then
          match body r with
          | None => (Raise JSONDecodeError, w1)
          | Some v =>
              let p1 := path_join (output_dir self) "github_exercises.json" in
              let p2 := path_join (output_dir self) "github_exercises.csv" in
              let df := json_normalize v in
              if writable w p1 then
                if writable w p2
                then (Ok v, with_file p2 (DocCsv (columns df) (rows df))
                              (with_file p1 (DocJson v) w1))
                else (Raise OSError, with_file p1 (DocJson v) w1)
              else (Raise OSError, w1)
          end
        else (Raise HTTPStatusError, w1)
    end.
Proof.
  unfold fetch_github_exercises, mbind, io_bind, client_get.
  destruct (net w (length (requests w))) as [|r]; [reflexivity|].
  unfold raise_for_status, response_json, write_file.
  destruct (_ && _)%bool; [|reflexivity].
  destruct (body r) as [v|]; [|reflexivity].
  cbn [mret io_ret writable with_request with_file].
  destruct (writable w _); [|reflexivity].
  cbn [writable with_request with_file].
  destruct (writable w _); reflexivity.
Qed.

(** C9 as stated fails in its second half: with status 200 and a body
    that is a JSON array, the method raises [OSError] when the JSON file
    cannot be written, and returns nothing. *)
Lemma fetch_github_exercises_unwritable_counterexample :
  (fetch_github_exercises (new_fetcher "exercise_data")
     (example_world 200 false)).1 = Raise OSError
  /\ ~ (forall (self : fetcher) (w : world) (r : response) (v : list dict),
          net w (length (requests w)) = Responded r ->
          (200 <= status_code r < 300)%Z ->
          body r = Some v ->
          (fetch_github_exercises self w).1 = Ok v).
Proof.
  split; [reflexivity|].
  intros H.
  specialize (H (new_fetcher "exercise_data") (example_world 200 false)
                _ [bench_press; dumbbell_fly] eq_refl).
  cbn [status_code body] in H.
  specialize (H ltac:(lia) eq_refl). discriminate H.
Qed.

(** C9 (amended). [fetch_github_exercises] sends one request. When the
    response has a status outside 200..299 it raises [HTTPStatusError] to
    its caller after that one request, whatever a further request would
    have returned, and writes no file; when no response comes it raises
    [TransportError]. When the status is in 200..299 and the body decodes
    as a JSON array, it writes the JSON file and the CSV file and, both
    written, returns the decoded body; a body that is not JSON raises
    [JSONDecodeError] and a file that cannot be written raises
    [OSError]. *)
Theorem fetch_github_exercises_status (self : fetcher) (w : world) :
  let w1 := with_request (github_url self) w in
  let p1 := path_join (output_dir self) "github_exercises.json" in
  let p2 := path_join (output_dir self) "github_exercises.csv" in
  requests w1 = requests w ++ [github_url self]
  /\ files w1 = files w
  /\ match net w (length (requests w)) with
     | NoResponse =>
         fetch_github_exercises self w = (Raise TransportError, w1)
     | Responded r =>
         ((status_code r < 200 \/ 300 <= status_code r)%Z ->
            fetch_github_exercises self w = (Raise HTTPStatusError, w1))
         /\ ((200 <= status_code r < 300)%Z ->
             match body r with
             | None =>
                 fetch_github_exercises self w = (Raise JSONDecodeError, w1)
             | Some v =>
                 (writable w p1 = true -> writable w p2 = true ->
                  fetch_github_exercises self w
                  = (Ok v,
                     with_file p2 (DocCsv (columns (json_normalize v))
                                          (rows (json_normalize v)))
                       (with_file p1 (DocJson v) w1)))
                 /\ (writable w p1 && writable w p2 = false ->
                     (fetch_github_exercises self w).1 = Raise OSError)
             end)
     end.
Proof.
  intros w1 p1 p2. rewrite (fetch_github_exercises_run self w).
  cbv zeta. fold w1 p1 p2. split; [reflexivity|]. split; [reflexivity|].
  destruct (net w (length (requests w))) as [|r]; [reflexivity|].
  destruct (Z.leb_spec 200 (status_code r)),
    (Z.ltb_spec (status_code r) 300); cbn [andb];
    (split; [intros Hs; try reflexivity; lia | intros Hs; try lia]).
  destruct (body r) as [v|]; [|reflexivity]. split.
  - by intros -> ->.
  - intros Hw. destruct (writable w p1); [|reflexivity].
    cbn [andb] in Hw. by rewrite Hw.
Qed.

Lemma fetch_github_exercises_status_witness :
  (fetch_github_exercises (new_fetcher "exercise_data")
     (example_world 404 true)).1 = Raise HTTPStatusError
  /\ (fetch_github_exercises (new_fetcher "exercise_data")
        (example_world 200 true)).1 = Ok [bench_press; dumbbell_fly].
Proof.
  split.
  - destruct (fetch_github_exercises_status (new_fetcher "exercise_data")
                (example_world 404 true)) as (_ & _ & H).
    cbn [example_world net status_code] in H. destruct H as [H _].
    by rewrite H by (right; lia).
  - destruct (fetch_github_exercises_status (new_fetcher "exercise_data")
                (example_world 200 true)) as (_ & _ & H).
    cbn [example_world net status_code body] in H. destruct H as [_ H].
    destruct (H ltac:(lia)) as [H' _].
    by rewrite (H' eq_refl eq_refl).
Defined.

(** ** Data frames of flat records *)

Lemma normalise_row_flat (d : dict) :
  forallb (fun kv => negb (is_dict kv.2)) d = true -> normalise_row d = d.
Proof.
  intros Hd. unfold normalise_row.
  assert (H1 : List.filter (fun kv : string * json => negb (is_dict kv.2)) d = d).
  { induction d as [|kv d IH]; [reflexivity|].
    cbn [forallb List.filter] in Hd |- *.
    apply andb_true_iff in Hd as [-> Hd]. by rewrite IH. }
  assert (H2 : List.filter (fun kv : string * json => is_dict kv.2) d = []).
  { clear H1. induction d as [|kv d IH]; [reflexivity|].
    cbn [forallb List.filter] in Hd |- *.
    apply andb_true_iff in Hd as [Hkv Hd].
    apply negb_true_iff in Hkv as ->. by apply IH. }
  rewrite H1, H2. reflexivity.
Qed.

Lemma json_normalize_rows_flat (D : list dict) :
  forallb analysable D = true -> rows (json_normalize D) = D.
Proof.
  cbn [json_normalize rows]. induction D as [|r D IH]; [reflexivity|].
  cbn [forallb map]. rewrite andb_true_iff. intros [Hr HD].
  rewrite IH by exact HD. f_equal. apply normalise_row_flat.
  unfold analysable in Hr. by repeat (apply andb_true_iff in Hr as [Hr _]).
Qed.

Lemma existsb_add_keys (k : string) (ks cols : list string) :
  existsb (String.eqb k) (add_keys ks cols)
  = existsb (String.eqb k) cols || existsb (String.eqb k) ks.
Proof.
  revert cols. induction ks as [|k' ks IH]; intros cols; cbn [add_keys existsb].
  - by rewrite orb_false_r.
  - rewrite IH. destruct (existsb (String.eqb k') cols) eqn:Hc.
    + destruct (String.eqb_spec k k') as [->|]; [|reflexivity].
      by rewrite Hc.
    + rewrite existsb_app. cbn [existsb]. rewrite orb_false_r.
      by rewrite orb_assoc.
Qed.

Lemma dict_has_keys (k : string) (d : dict) :
  dict_has k d = existsb (String.eqb k) (map fst d).
Proof.
  unfold dict_has. induction d as [|[k' v] d IH]; [reflexivity|]. cbn.
  destruct (String.eqb k k'); [reflexivity | exact IH].
Qed.

Lemma has_column_flat (D : list dict) (k : string) :
  forallb analysable D = true ->
  has_column (json_normalize D) k = in_dataset k D.
Proof.
  intros HD. unfold has_column. cbn [json_normalize columns].
  pose proof (json_normalize_rows_flat D HD) as Hrows.
  cbn [json_normalize rows] in Hrows. rewrite Hrows.
  unfold in_dataset.
  assert (H : forall cols,
             existsb (String.eqb k)
               (fold_left (fun cols r => add_keys (map fst r) cols) D cols)
             = existsb (String.eqb k) cols || existsb (dict_has k) D).
  { clear. induction D as [|r D IH]; intros cols; cbn [fold_left existsb].
    - by rewrite orb_false_r.
    - by rewrite IH, existsb_add_keys, dict_has_keys, orb_assoc. }
  by rewrite H.
Qed.

Lemma column_flat (D : list dict) (k : string) :
  forallb analysable D = true ->
  column (json_normalize D) k = map (dict_get k) D.
Proof.
  intros HD. unfold column. by rewrite json_normalize_rows_flat.
Qed.

(** ** Equality of keys *)

Lemma key_eq_spec (a b : json) :
  key_eq a b = true <-> key_of a = key_of b /\ key_of a <> None.
Proof.
  destruct a as [|x|n|s|l|kvs], b as [|y|m|t|l'|kvs']; cbn;
    rewrite ?Z.eqb_eq, ?String.eqb_eq, ?Bool.eqb_true_iff;
    try (split; [discriminate | intros [H1 H2]; congruence]);
    try (split; [intros ->; by split | intros [[=] _]; congruence]).
  split; [intros ->; by split | intros [[= H] _]; by destruct x, y].
Qed.

Lemma key_eq_refl (v : json) : keyable v = true -> key_eq v v = true.
Proof. intros H. apply key_eq_spec. by destruct v. Qed.

Lemma key_eq_sym (a b : json) : key_eq a b = key_eq b a.
Proof.
  destruct (key_eq a b) eqn:Hab, (key_eq b a) eqn:Hba; try reflexivity.
  - apply key_eq_spec in Hab as [H1 H2].
    assert (key_eq b a = true) by (apply key_eq_spec; split; congruence).
    congruence.
  - apply key_eq_spec in Hba as [H1 H2].
    assert (key_eq a b = true) by (apply key_eq_spec; split; congruence).
    congruence.
Qed.

Lemma key_eq_trans (a b c : json) :
  key_eq a b = true -> key_eq b c = true -> key_eq a c = true.
Proof.
  rewrite !key_eq_spec. intros [H1 H2] [H3 H4]. split; congruence.
Qed.

(** ** The table of counts *)

Lemma first_seen_snoc (ws : list json) (v : json) :
  first_seen (ws ++ [v])
  = if existsb (fun w => key_eq w v) ws then first_seen ws
    else first_seen ws ++ [v].
Proof.
  induction ws as [|w ws IH]; [reflexivity|].
  cbn [app first_seen existsb]. rewrite IH.
  destruct (key_eq w v) eqn:Hwv; cbn [orb].
  - destruct (existsb _ ws); [reflexivity|].
    rewrite List.filter_app. cbn [List.filter]. rewrite Hwv. cbn [negb].
    by rewrite app_nil_r.
  - destruct (existsb _ ws); [reflexivity|].
    rewrite List.filter_app. cbn [List.filter]. by rewrite Hwv.
Qed.

Lemma occurrences_snoc (k : json) (ws : list json) (v : json) :
  occurrences k (ws ++ [v])
  = occurrences k ws + (if key_eq k v then 1 else 0).
Proof.
  unfold occurrences. rewrite List.filter_app, length_app. cbn [List.filter].
  by destruct (key_eq k v).
Qed.

Lemma StronglySorted_filter {A} (R : A -> A -> Prop) (f : A -> bool)
    (l : list A) :
  StronglySorted R l -> StronglySorted R (List.filter f l).
Proof.
  induction 1 as [|x l Hl IH Hx]; cbn [List.filter]; [constructor|].
  destruct (f x); [|exact IH]. constructor; [exact IH|].
  apply List.Forall_forall. intros y Hy. apply filter_In in Hy as [Hy _].
  by eapply List.Forall_forall in Hx.
Qed.

Lemma first_seen_distinct (ws : list json) :
  StronglySorted (fun a b => key_eq a b = false) (first_seen ws).
Proof.
  induction ws as [|w ws IH]; cbn [first_seen]; constructor.
  - by apply StronglySorted_filter.
  - apply List.Forall_forall. intros y Hy. apply filter_In in Hy as [_ Hy].
    by apply negb_true_iff.
Qed.

Lemma existsb_filter_keep {A} (p q : A -> bool) (l : list A) :
  (forall x, p x = true -> q x = true) ->
  existsb p (List.filter q l) = existsb p l.
Proof.
  intros Hpq. induction l as [|x l IH]; [reflexivity|].
  cbn [List.filter existsb]. destruct (q x) eqn:Hq; cbn [existsb].
  - by rewrite IH.
  - destruct (p x) eqn:Hp; [|exact IH]. apply Hpq in Hp. congruence.
Qed.

Lemma existsb_first_seen (v : json) (ws : list json) :
  existsb (fun k => key_eq k v) (first_seen ws)
  = existsb (fun w => key_eq w v) ws.
Proof.
  induction ws as [|w ws IH]; [reflexivity|].
  cbn [first_seen existsb]. destruct (key_eq w v) eqn:Hwv; [reflexivity|].
  cbn [orb]. rewrite <- IH. apply existsb_filter_keep.
  intros x Hx. apply negb_true_iff.
  destruct (key_eq w x) eqn:Hwx; [|reflexivity].
  rewrite (key_eq_trans w x v Hwx Hx) in Hwv. discriminate.
Qed.

Lemma tally_add_table (v : json) (ks : list json) (f : json -> nat) :
  StronglySorted (fun a b => key_eq a b = false) ks ->
  tally_add v (map (fun k => (k, f k)) ks)
  = if existsb (fun k => key_eq k v) ks
    then map (fun k => (k, f k + if key_eq k v then 1 else 0)) ks
    else map (fun k => (k, f k)) ks ++ [(v, 1)].
Proof.
  induction 1 as [|k ks Hks IH Hk]; [reflexivity|].
  cbn [map tally_add existsb]. destruct (key_eq k v) eqn:Hkv; cbn [orb].
  - rewrite Nat.add_1_r. f_equal. apply map_ext_in. intros k' Hk'.
    eapply List.Forall_forall in Hk; [|exact Hk'].
    destruct (key_eq k' v) eqn:Hk'v; [|by rewrite Nat.add_0_r].
    rewrite (key_eq_sym k' v) in Hk'v.
    rewrite (key_eq_trans k v k' Hkv Hk'v) in Hk. discriminate.
  - rewrite Nat.add_0_r, IH. by destruct (existsb _ ks).
Qed.

Lemma occurrences_none (v : json) (ws : list json) :
  existsb (fun w => key_eq w v) ws = false -> occurrences v ws = 0.
Proof.
  unfold occurrences. induction ws as [|w ws IH]; [reflexivity|].
  cbn [existsb List.filter]. intros H. apply orb_false_iff in H as [Hw Hws].
  rewrite key_eq_sym, Hw. by apply IH.
Qed.

Lemma tally_add_count_table (v : json) (ws : list json) :
  keyable v = true ->
  tally_add v (count_table ws) = count_table (ws ++ [v]).
Proof.
  intros Hv. unfold count_table.
  rewrite tally_add_table by apply first_seen_distinct.
  rewrite first_seen_snoc, existsb_first_seen.
  destruct (existsb (fun w => key_eq w v) ws) eqn:Hex.
  - apply map_ext. intros k. by rewrite occurrences_snoc.
  - rewrite map_app. cbn [map]. f_equal.
    + apply map_ext_in. intros k Hk. rewrite occurrences_snoc.
      rewrite <- existsb_first_seen in Hex.
      assert (key_eq k v = false) as ->; [|by rewrite Nat.add_0_r].
      destruct (key_eq k v) eqn:Hkv; [|reflexivity].
      rewrite <- Hex. symmetry. apply existsb_exists. by exists k.
    + rewrite occurrences_snoc, (occurrences_none v ws Hex).
      by rewrite (key_eq_refl v Hv).
Qed.

Lemma tally_count_table (vs : list json) :
  forallb keyable vs = true -> tally vs = count_table vs.
Proof.
  unfold tally. change (@nil (json * nat)) with (count_table []).
  change vs with ([] ++ vs) at 3. generalize (@nil json) as ws.
  induction vs as [|v vs IH]; intros ws.
  - intros _. by rewrite app_nil_r.
  - cbn [forallb fold_left]. rewrite andb_true_iff. intros [Hv Hvs].
    rewrite (tally_add_count_table v ws Hv), IH by exact Hvs.
    by rewrite <- app_assoc.
Qed.

(** ** Sorting by falling count *)

Lemma insert_desc_perm (x : json * nat) (t : list (json * nat)) :
  Permutation (insert_desc x t) (x :: t).
Proof.
  induction t as [|y t IH]; [reflexivity|]. cbn [insert_desc].
  destruct (x.2 <? y.2)%nat; [|reflexivity].
  rewrite IH. apply perm_swap.
Qed.

Lemma sort_desc_perm (t : list (json * nat)) : Permutation (sort_desc t) t.
Proof.
  induction t as [|x t IH]; [reflexivity|]. cbn [sort_desc].
  rewrite insert_desc_perm. by constructor.
Qed.

Lemma insert_desc_sorted (x : json * nat) (t : list (json * nat)) :
  StronglySorted (fun a b => b.2 <= a.2) t ->
  StronglySorted (fun a b => b.2 <= a.2) (insert_desc x t).
Proof.
  induction 1 as [|y t Ht IH Hy]; cbn [insert_desc].
  - repeat constructor.
  - destruct (Nat.ltb_spec x.2 y.2) as [Hlt|Hge].
    + constructor; [exact IH|].
      eapply Permutation_Forall; [symmetry; apply insert_desc_perm|].
      constructor; [lia | exact Hy].
    + constructor; [by constructor|].
      constructor; [exact Hge|].
      eapply Forall_impl; [exact Hy|]. intros z Hz. cbn beta in Hz. lia.
Qed.

Lemma sort_desc_sorted (t : list (json * nat)) :
  StronglySorted (fun a b => b.2 <= a.2) (sort_desc t).
Proof.
  induction t as [|x t IH]; [constructor|]. by apply insert_desc_sorted.
Qed.

Lemma insert_desc_stable (c : nat) (x : json * nat) (t : list (json * nat)) :
  List.filter (with_count c) (insert_desc x t)
  = List.filter (with_count c) (x :: t).
Proof.
  induction t as [|y t IH]; [reflexivity|]. cbn [insert_desc].
  destruct (Nat.ltb_spec x.2 y.2) as [Hlt|Hge]; [|reflexivity].
  cbn [List.filter] in IH |- *. rewrite IH. unfold with_count.
  destruct (Nat.eqb_spec x.2 c), (Nat.eqb_spec y.2 c); try reflexivity. lia.
Qed.

Lemma sort_desc_stable (c : nat) (t : list (json * nat)) :
  List.filter (with_count c) (sort_desc t) = List.filter (with_count c) t.
Proof.
  induction t as [|x t IH]; [reflexivity|]. cbn [sort_desc].
  rewrite insert_desc_stable. cbn [List.filter]. by rewrite IH.
Qed.

Lemma sort_desc_breakdown (vs : list json) :
  forallb keyable vs = true -> is_breakdown vs (sort_desc (tally vs)).
Proof.
  intros Hvs. rewrite (tally_count_table vs Hvs). split; [|split].
  - apply sort_desc_perm.
  - apply sort_desc_sorted.
  - intros c. apply sort_desc_stable.
Qed.

(** ** [value_counts] on the columns of the analysis *)

Lemma dropna_field (k : string) (D : list dict) :
  forallb (fun r => hashable (get r k JNull)) D = true ->
  dropna (map (dict_get k) D) = Ok (field_values k D)
  /\ forallb keyable (field_values k D) = true.
Proof.
  induction D as [|r D IH]; [by split|].
  cbn [forallb map dropna field_values]. rewrite andb_true_iff.
  intros [Hr HD]. destruct (IH HD) as [IH1 IH2]. unfold get in Hr.
  destruct (dict_get k r) as [[]|]; try discriminate; try (by split);
    rewrite IH1; simpl_result; by split.
Qed.

Lemma dropna_some (vs : list json) :
  forallb hashable vs = true ->
  dropna (map Some vs) = Ok (List.filter not_null vs)
  /\ forallb keyable (List.filter not_null vs) = true.
Proof.
  induction vs as [|v vs IH]; [by split|].
  cbn [forallb map dropna List.filter]. rewrite andb_true_iff.
  intros [Hv Hvs]. destruct (IH Hvs) as [IH1 IH2].
  destruct v; try discriminate; cbn [not_null]; try (by split);
    rewrite IH1; simpl_result; by split.
Qed.

Lemma all_muscles_column (D : list dict) :
  all_muscles (map (dict_get "primaryMuscles") D) = muscle_values D.
Proof.
  unfold all_muscles.
  assert (H : forall acc,
             fold_left (fun acc muscles =>
                          match muscles with
                          | Some (JList l) => acc ++ l
                          | _ => acc
                          end) (map (dict_get "primaryMuscles") D) acc
             = acc ++ muscle_values D); [|apply H].
  induction D as [|r D IH]; intros acc; cbn [map fold_left muscle_values].
  - by rewrite app_nil_r.
  - rewrite IH. destruct (dict_get "primaryMuscles" r) as [[]|];
      try reflexivity. by rewrite <- app_assoc.
Qed.

Lemma analysable_fields (D : list dict) :
  forallb analysable D = true ->
  forallb (fun r => hashable (get r "equipment" JNull)) D = true
  /\ forallb (fun r => hashable (get r "level" JNull)) D = true
  /\ forallb hashable (muscle_values D) = true.
Proof.
  induction D as [|r D IH]; [by repeat split|].
  cbn [forallb muscle_values]. rewrite andb_true_iff. intros [Hr HD].
  destruct (IH HD) as (IH1 & IH2 & IH3). unfold analysable in Hr.
  rewrite !andb_true_iff in Hr. destruct Hr as [[[_ He] Hl] Hm].
  rewrite He, Hl, IH1, IH2. repeat split.
  unfold muscles_of in Hm.
  destruct (dict_get "primaryMuscles" r) as [[]|]; try exact IH3.
  rewrite forallb_app, Hm, IH3. reflexivity.
Qed.

(** ** [analyze_exercises] *)

Lemma counts_if_present_flat (D : list dict) (k : string) :
  forallb analysable D = true ->
  forallb (fun r => hashable (get r k JNull)) D = true ->
  counts_if_present (json_normalize D) k
  = Ok (if in_dataset k D
        then Some (sort_desc (tally (field_values k D)))
        else None).
Proof.
  intros HD Hk. unfold counts_if_present, value_counts.
  rewrite has_column_flat, column_flat by exact HD.
  destruct (in_dataset k D); [|reflexivity].
  destruct (dropna_field k D Hk) as [-> _]. reflexivity.
Qed.

Lemma analyze_exercises_flat (D : list dict) :
  forallb analysable D = true ->
  analyze_exercises D
  = Ok (json_normalize D,
        {| total := length D;
           column_names := columns (json_normalize D);
           by_equipment :=
             if in_dataset "equipment" D
             then Some (sort_desc (tally (field_values "equipment" D)))
             else None;
           by_level :=
             if in_dataset "level" D
             then Some (sort_desc (tally (field_values "level" D)))
             else None;
           by_muscle :=
             if in_dataset "primaryMuscles" D
             then Some (sort_desc
                          (tally (List.filter not_null (muscle_values D))))
             else None |}).
Proof.
  intros HD. destruct (analysable_fields D HD) as (He & Hl & Hm).
  unfold analyze_exercises.
  rewrite (counts_if_present_flat D "equipment" HD He). simpl_result.
  rewrite (counts_if_present_flat D "level" HD Hl). simpl_result.
  rewrite has_column_flat, column_flat by exact HD.
  rewrite all_muscles_column. unfold value_counts.
  destruct (dropna_some _ Hm) as [-> _].
  by destruct (in_dataset "primaryMuscles" D).
Qed.

(** C6. On a dataset of records the data model allows,
    [analyze_exercises] returns, and what it prints is this. For each of
    [equipment] and [level] that some record has: a row for every distinct
    value with the number of records that have it, the counts falling, the
    rows of equal count in first-seen order. For [primaryMuscles]: the
    same breakdown of the list values of all records flattened into one
    sequence. A field that no record has is passed over without error. On
    the two records of the example the equipment counts are barbell 1,
    dumbbell 1 and the muscle counts chest 2. *)
Theorem analyze_exercises_breakdowns (D : list dict) :
  forallb analysable D = true ->
  (exists df rep,
     analyze_exercises D = Ok (df, rep)
     /\ match by_equipment rep with
        | Some t => in_dataset "equipment" D = true
                    /\ is_breakdown (field_values "equipment" D) t
        | None => in_dataset "equipment" D = false
        end
     /\ match by_level rep with
        | Some t => in_dataset "level" D = true
                    /\ is_breakdown (field_values "level" D) t
        | None => in_dataset "level" D = false
        end
     /\ match by_muscle rep with
        | Some t => in_dataset "primaryMuscles" D = true
                    /\ is_breakdown (List.filter not_null (muscle_values D)) t
        | None => in_dataset "primaryMuscles" D = false
        end)
  /\ (exists df rep,
        analyze_exercises [bench_press; dumbbell_fly] = Ok (df, rep)
        /\ by_equipment rep = Some [(JStr "barbell", 1); (JStr "dumbbell", 1)]
        /\ by_muscle rep = Some [(JStr "chest", 2)]).
Proof.
  intros HD. split; [|by do 2 eexists].
  destruct (analysable_fields D HD) as (He & Hl & Hm).
  do 2 eexists. split; [by apply analyze_exercises_flat|].
  cbn [by_equipment by_level by_muscle]. repeat split.
  - destruct (in_dataset "equipment" D) eqn:Hin; [|reflexivity].
    split; [reflexivity|]. by apply sort_desc_breakdown, dropna_field.
  - destruct (in_dataset "level" D) eqn:Hin; [|reflexivity].
    split; [reflexivity|]. by apply sort_desc_breakdown, dropna_field.
  - destruct (in_dataset "primaryMuscles" D) eqn:Hin; [|reflexivity].
    split; [reflexivity|]. by apply sort_desc_breakdown, dropna_some.
Qed.

Lemma analyze_exercises_breakdowns_witness :
  forallb analysable [bench_press; dumbbell_fly; unnamed] = true
  /\ exists df rep,
       analyze_exercises [bench_press; dumbbell_fly; unnamed] = Ok (df, rep)
       /\ by_level rep
          = Some [(JStr "beginner", 2); (JStr "intermediate", 1)].
Proof.
  split; [reflexivity|].
  destruct (analyze_exercises_breakdowns
              [bench_press; dumbbell_fly; unnamed] eq_refl)
    as [(df & rep & H & _) _].
  exists df, rep. split; [exact H|].
  by injection H as _ <-.
Defined.

(** * Further properties *)

(** ** [filter_exercises] on any data *)

Lemma comprehension_app {A} (p : A -> result bool) (l1 l2 : list A) :
  comprehension p (l1 ++ l2)
  = (r1 ← comprehension p l1; r2 ← comprehension p l2; Ok (r1 ++ r2)).
Proof.
  induction l1 as [|x l1 IH]; cbn [app comprehension].
  - simpl_result. by destruct (comprehension p l2).
  - destruct (p x) as [b|e]; simpl_result; [|reflexivity]. rewrite IH.
    destruct (comprehension p l1) as [r1|e]; simpl_result; [|reflexivity].
    destruct (comprehension p l2) as [r2|e]; simpl_result; [|reflexivity].
    by destruct b.
Qed.

Lemma comprehension_py_in (m : string) (L : list dict) :
  comprehension (fun e => py_in m (get e "primaryMuscles" (JList []))) L
  = if existsb (fun r => not_container (muscles_read r)) L
    then Raise TypeError
    else Ok (List.filter (muscle_in m) L).
Proof.
  induction L as [|r L IH]; [reflexivity|].
  cbn [comprehension existsb List.filter]. rewrite IH.
  unfold muscle_in, muscles_read.
  destruct (get r "primaryMuscles" (JList [])); cbn [py_in not_container orb];
    simpl_result; try reflexivity;
    destruct (existsb _ L); simpl_result; reflexivity.
Qed.

Lemma filter_exercises_total (D : list dict) (e l m : option string) :
  filter_exercises D e l m
  = if truthy m
       && existsb (fun r => not_container (muscles_read r))
            (List.filter (fields_pass e l) D)
    then Raise TypeError
    else Ok (List.filter
               (fun r => fields_pass e l r
                         && match supplied m with
                            | Some c => muscle_in c r
                            | None => true
                            end) D).
Proof.
  unfold filter_exercises.
  rewrite (field_step "equipment"). simpl_result.
  rewrite (field_step "level"). simpl_result.
  rewrite filter_filter.
  assert (Hf : forall L : list dict,
    List.filter (fun r => match supplied e with
                          | Some s => field_equals r "equipment" s
                          | None => true
                          end
                          && match supplied l with
                             | Some s => field_equals r "level" s
                             | None => true
                             end) L
    = List.filter (fields_pass e l) L).
  { intros L. apply filter_ext. intros r.
    unfold fields_pass, retained, retained_as_stated. cbn [supplied truthy].
    by rewrite andb_true_r. }
  rewrite Hf. unfold supplied. destruct m as [c|]; cbn [truthy andb].
  - destruct (negb (String.eqb c "")); cbn [andb].
    + rewrite comprehension_py_in. destruct (existsb _ _); simpl_result;
        [reflexivity|]. by rewrite filter_filter.
    + simpl_result. f_equal. apply filter_ext. intros r.
      by rewrite andb_true_r.
  - simpl_result. f_equal. apply filter_ext. intros r. by rewrite andb_true_r.
Qed.

(** X1. [filter_exercises] raises exactly in one case: the muscle
    criterion is applied and a record that passed the equipment and level
    criteria has a [primaryMuscles] that is null, a bool or a number; the
    exception is then [TypeError]. A record the earlier criteria removed
    cannot make it raise. *)
Theorem filter_exercises_raises_iff (D : list dict)
    (equipment level muscle : option string) (x : exn) :
  filter_exercises D equipment level muscle = Raise x <->
  x = TypeError /\ truthy muscle = true
  /\ exists r, r ∈ D /\ fields_pass equipment level r = true
               /\ not_container (muscles_read r) = true.
Proof.
  rewrite filter_exercises_total.
  destruct (truthy muscle); cbn [andb].
  - destruct (existsb _ _) eqn:Hex.
    + apply existsb_exists in Hex as (r & Hr & Hbad).
      apply filter_In in Hr as [Hr Hpass]. split.
      * intros [= <-]. repeat split. exists r.
        by rewrite list_elem_of_In.
      * by intros (-> & _).
    + split; [discriminate|]. intros (_ & _ & r & Hr & Hpass & Hbad).
      assert (existsb (fun r => not_container (muscles_read r))
                (List.filter (fields_pass equipment level) D) = true)
        as Hex'; [|congruence].
      apply existsb_exists. exists r. split; [|exact Hbad].
      apply filter_In. by rewrite <- list_elem_of_In.
  - split; [discriminate | by intros (_ & [=] & _)].
Qed.

Lemma filter_containers (D : list dict)
    (equipment level muscle : option string) :
  forallb (fun r => negb (not_container (muscles_read r))) D = true ->
  filter_exercises D equipment level muscle
  = Ok (List.filter
          (fun r => fields_pass equipment level r
                    && match supplied muscle with
                       | Some c => muscle_in c r
                       | None => true
                       end) D).
Proof.
  intros HD. rewrite filter_exercises_total.
  assert (existsb (fun r => not_container (muscles_read r))
            (List.filter (fields_pass equipment level) D) = false) as ->;
    [|by rewrite andb_false_r].
  apply not_true_is_false. intros Hex.
  apply existsb_exists in Hex as (r & Hr & Hbad).
  apply filter_In in Hr as [Hr _].
  rewrite forallb_forall in HD. specialize (HD r Hr).
  by rewrite Hbad in HD.
Qed.

(** X2. On a dataset in which every [primaryMuscles] is a list, a str or
    a dict, or absent, [filter_exercises] returns the records that pass
    the applied criteria, where the muscle criterion passes a list that has
    it as an element, a str that has it as a substring, and a dict that
    has it as a key. *)
Theorem filter_exercises_containers (D : list dict)
    (equipment level muscle : option string) :
  forallb (fun r => negb (not_container (muscles_read r))) D = true ->
  filter_exercises D equipment level muscle
  = Ok (List.filter
          (fun r => fields_pass equipment level r
                    && match supplied muscle with
                       | Some c => muscle_in c r
                       | None => true
                       end) D).
Proof. apply filter_containers. Qed.

Lemma filter_exercises_containers_witness :
  forallb (fun r => negb (not_container (muscles_read r)))
    [bench_press; muscles_as_str] = true
  /\ filter_exercises [bench_press; muscles_as_str] None None (Some "hes")
     = Ok [muscles_as_str].
Proof.
  split; [reflexivity|].
  exact (filter_exercises_containers [bench_press; muscles_as_str]
           None None (Some "hes") eq_refl).
Defined.

Lemma filter_exercises_single_equipment (D : list dict) (c : option string) :
  filter_exercises D c None None
  = guarded c (fun s r => Ok (eq_str (get r "equipment" JNull) s)) D.
Proof.
  unfold filter_exercises, guarded, mbind, result_bind.
  destruct c as [s|]; [destruct (truthy (Some s))|]; try reflexivity.
  by destruct (comprehension _ D).
Qed.

Lemma filter_exercises_single_level (D : list dict) (c : option string) :
  filter_exercises D None c None
  = guarded c (fun s r => Ok (eq_str (get r "level" JNull) s)) D.
Proof.
  unfold filter_exercises, guarded, mbind, result_bind.
  destruct c as [s|]; [destruct (truthy (Some s))|]; try reflexivity.
  by destruct (comprehension _ D).
Qed.

Lemma filter_exercises_single_muscle (D : list dict) (c : option string) :
  filter_exercises D None None c
  = guarded c (fun s r => py_in s (get r "primaryMuscles" (JList []))) D.
Proof.
  unfold filter_exercises, guarded, mbind, result_bind.
  destruct c as [s|]; [destruct (truthy (Some s))|]; try reflexivity.
  by destruct (comprehension _ D).
Qed.

(** X3. One call with several criteria is the chain of the calls with
    one criterion each, equipment first, then level, then muscle, each on
    the result of the one before; an exception of the chain is the
    exception of the one call. *)
Theorem filter_exercises_one_at_a_time (D : list dict)
    (equipment level muscle : option string) :
  filter_exercises D equipment level muscle
  = (F1 ← filter_exercises D equipment None None;
     F2 ← filter_exercises F1 None level None;
     filter_exercises F2 None None muscle).
Proof.
  rewrite (filter_exercises_guarded D equipment level muscle).
  rewrite (filter_exercises_single_equipment D equipment).
  destruct (guarded equipment _ D) as [F1|]; simpl_result; [|reflexivity].
  rewrite (filter_exercises_single_level F1 level).
  destruct (guarded level _ F1) as [F2|]; simpl_result; [|reflexivity].
  by rewrite (filter_exercises_single_muscle F2 muscle).
Qed.

Lemma fields_pass_split (e l : option string) (r : dict) :
  fields_pass e l r = fields_pass e None r && fields_pass None l r.
Proof.
  unfold fields_pass, retained, retained_as_stated. cbn [supplied truthy].
  by rewrite !andb_true_r.
Qed.

Lemma fields_pass_none (r : dict) : fields_pass None None r = true.
Proof. reflexivity. Qed.

(** X4. On a dataset in which every [primaryMuscles] is a list, a str or
    a dict, or absent, the order of the criteria does not matter: the
    chain of single-criterion calls taken in the reverse order, muscle
    first and equipment last, gives what the one call gives. *)
Theorem filter_exercises_any_order (D : list dict)
    (equipment level muscle : option string) :
  forallb (fun r => negb (not_container (muscles_read r))) D = true ->
  (F1 ← filter_exercises D None None muscle;
   F2 ← filter_exercises F1 None level None;
   filter_exercises F2 equipment None None)
  = filter_exercises D equipment level muscle.
Proof.
  intros HD.
  rewrite (filter_containers D None None muscle HD). simpl_result.
  rewrite filter_containers by by apply forallb_filter.
  simpl_result.
  rewrite filter_containers by by do 2 apply forallb_filter.
  rewrite (filter_containers D equipment level muscle HD).
  rewrite !filter_filter. f_equal. apply filter_ext. intros r.
  rewrite (fields_pass_split equipment level r). cbn [supplied truthy].
  rewrite fields_pass_none, !andb_true_r, !andb_true_l.
  destruct (fields_pass equipment None r), (fields_pass None level r),
    (match supplied muscle with Some c => muscle_in c r | None => true end);
    reflexivity.
Qed.

Lemma filter_exercises_any_order_witness :
  (F1 ← filter_exercises [bench_press; dumbbell_fly; muscles_as_str]
          None None (Some "chest");
   F2 ← filter_exercises F1 None (Some "beginner") None;
   filter_exercises F2 (Some "dumbbell") None None)
  = Ok [dumbbell_fly].
Proof.
  rewrite (filter_exercises_any_order
             [bench_press; dumbbell_fly; muscles_as_str]
             (Some "dumbbell") (Some "beginner") (Some "chest") eq_refl).
  reflexivity.
Defined.

(** X5. Filtering a concatenation is filtering the two parts and
    concatenating the results; it raises when one of the parts does. *)
Theorem filter_exercises_app (D1 D2 : list dict)
    (equipment level muscle : option string) :
  filter_exercises (D1 ++ D2) equipment level muscle
  = (out1 ← filter_exercises D1 equipment level muscle;
     out2 ← filter_exercises D2 equipment level muscle;
     Ok (out1 ++ out2)).
Proof.
  rewrite !filter_exercises_total, !List.filter_app, existsb_app.
  destruct (truthy muscle); cbn [andb]; [|reflexivity].
  destruct (existsb _ (List.filter _ D1)); cbn [orb]; [reflexivity|].
  simpl_result. by destruct (existsb _ (List.filter _ D2)).
Qed.

Lemma filter_sublist_impl {A} (f g : A -> bool) (l : list A) :
  (forall x, f x = true -> g x = true) ->
  sublist (List.filter f l) (List.filter g l).
Proof.
  intros Hfg. induction l as [|x l IH]; [constructor|].
  cbn [List.filter]. destruct (f x) eqn:Hf.
  - rewrite (Hfg x Hf). by apply sublist_skip.
  - destruct (g x); [by apply sublist_cons | exact IH].
Qed.

(** X6. A further criterion narrows the result: what a call returns is a
    subsequence of what the call with the equipment criterion alone
    returns, of what the call with the level criterion alone returns, and
    of what the call without the muscle criterion returns; these three
    calls never raise. *)
Theorem filter_exercises_narrows (D out : list dict)
    (equipment level muscle : option string) :
  filter_exercises D equipment level muscle = Ok out ->
  (exists o, filter_exercises D equipment None None = Ok o /\ sublist out o)
  /\ (exists o, filter_exercises D None level None = Ok o /\ sublist out o)
  /\ (exists o, filter_exercises D equipment level None = Ok o
                /\ sublist out o).
Proof.
  rewrite !filter_exercises_total. cbn [truthy andb supplied].
  destruct (_ && _); [discriminate|]. intros [= <-].
  repeat split; eexists; (split; [reflexivity|]);
    apply filter_sublist_impl; intros r; rewrite (fields_pass_split _ _ r);
    rewrite !andb_true_iff; cbn; tauto.
Qed.

Lemma filter_exercises_narrows_witness :
  exists o, filter_exercises [bench_press; dumbbell_fly; unnamed]
              None (Some "beginner") None = Ok o
            /\ sublist [dumbbell_fly] o.
Proof.
  exact (proj1 (proj2 (filter_exercises_narrows
                         [bench_press; dumbbell_fly; unnamed] [dumbbell_fly]
                         (Some "dumbbell") (Some "beginner") (Some "chest")
                         eq_refl))).
Defined.

(** ** List objects: when the result is a new one *)

Lemma filter_step_alloc (c : option string)
    (p : string -> dict -> result bool) (h h' : heap) (a a' : nat) :
  filter_step c p (h, a) = Ok (h', a') ->
  length h' = length h + Nat.b2n (truthy c)
  /\ a' = (if truthy c then length h else a).
Proof.
  unfold filter_step. cbn [fst snd].
  destruct c as [s|]; [destruct (truthy (Some s))|].
  - destruct (comprehension _ _) as [L|]; simpl_result; [|discriminate].
    unfold alloc. intros [= <- <-]. rewrite length_app. by cbn.
  - intros [= <- <-]. cbn. by rewrite Nat.add_0_r.
  - intros [= <- <-]. cbn. by rewrite Nat.add_0_r.
Qed.

(** X7. On the heap of list objects every applied criterion builds one
    new list: the call leaves the heap longer by the number of applied
    criteria, and when at least one is applied the list it returns is the
    last one built, never the list object it was given. *)
Theorem filter_exercises_heap_fresh (h h' : heap) (a a' : nat)
    (D : list dict) (equipment level muscle : option string) :
  h !! a = Some D ->
  filter_exercises_heap h a equipment level muscle = Ok (h', a') ->
  length h' = length h + applied equipment level muscle
  /\ (0 < applied equipment level muscle ->
      a' = length h' - 1 /\ a' <> a /\ length h <= a').
Proof.
  intros Ha. apply lookup_lt_Some in Ha.
  unfold filter_exercises_heap, applied.
  destruct (filter_step equipment _ (h, a)) as [[h1 a1]|] eqn:H1;
    simpl_result; [|discriminate].
  destruct (filter_step level _ (h1, a1)) as [[h2 a2]|] eqn:H2;
    simpl_result; [|discriminate].
  destruct (filter_step muscle _ (h2, a2)) as [[h3 a3]|] eqn:H3;
    simpl_result; [|discriminate].
  intros [= <- <-].
  apply filter_step_alloc in H1 as [L1 A1], H2 as [L2 A2], H3 as [L3 A3].
  destruct (truthy equipment), (truthy level), (truthy muscle);
    cbn [Nat.b2n] in *; subst; split; try lia; intros; lia.
Qed.

Lemma filter_exercises_heap_fresh_witness :
  exists h' a',
    filter_exercises_heap [[bench_press; dumbbell_fly]] 0
      (Some "dumbbell") None (Some "chest") = Ok (h', a')
    /\ length h' = 3 /\ a' = 2.
Proof.
  do 2 eexists. split; [reflexivity|].
  destruct (filter_exercises_heap_fresh [[bench_press; dumbbell_fly]] _ 0 _
              [bench_press; dumbbell_fly] (Some "dumbbell") None
              (Some "chest") eq_refl eq_refl) as [Hl Ha].
  split; [exact Hl|]. destruct Ha as (-> & _); [cbn; lia|]. by rewrite Hl.
Defined.

(** ** [get_exercise_by_name] on any data *)

Lemma get_exercise_by_name_total (D : list dict) (q : string) :
  get_exercise_by_name D q
  = match List.find (fun r => name_hit q r || name_bad r) D with
    | None => Ok None
    | Some r => if name_bad r then Raise AttributeError else Ok (Some r)
    end.
Proof.
  unfold get_exercise_by_name. induction D as [|r D IH]; [reflexivity|].
  cbn [get_exercise_by_name_loop List.find]. rewrite IH.
  assert (Hbad : name_bad r = match get r "name" (JStr "") with
                             | JStr _ => false
                             | _ => true
                             end) by reflexivity.
  assert (Hhit : name_hit q r = match get r "name" (JStr "") with
                                | JStr s => str_in (lower q) (lower s)
                                | _ => false
                                end) by reflexivity.
  destruct (get r "name" (JStr "")) as [| | |s| |];
    rewrite Hhit, Hbad; cbn [str_lower orb]; simpl_result;
    rewrite ?Hbad; try reflexivity.
  rewrite orb_false_r. destruct (str_in (lower q) (lower s));
    [by rewrite Hbad | reflexivity].
Qed.

Lemma name_hit_not_bad (q : string) (r : dict) :
  name_bad r = false ->
  exists s, name_read r = JStr s /\ name_hit q r = str_in (lower q) (lower s).
Proof.
  unfold name_bad, name_hit. destruct (name_read r); try discriminate.
  intros _. by eexists.
Qed.

Lemma get_exercise_by_name_returns (D : list dict) (q : string) (r : dict) :
  get_exercise_by_name D q = Ok (Some r) ->
  r ∈ D
  /\ exists s, name_read r = JStr s
               /\ substring (lower q) (lower s)
               /\ (q <> "" -> dict_get "name" r = Some (JStr s)).
Proof.
  rewrite get_exercise_by_name_total.
  destruct (List.find _ D) as [r'|] eqn:Hfind; [|discriminate].
  destruct (name_bad r') eqn:Hbad; [discriminate|]. intros [= ->].
  apply find_some in Hfind as [Hin Hhit]. rewrite Hbad, orb_false_r in Hhit.
  split; [by apply list_elem_of_In|].
  destruct (name_hit_not_bad q r Hbad) as (s & Hs & Heq).
  exists s. split; [exact Hs|]. rewrite Heq in Hhit.
  apply str_in_spec in Hhit. split; [exact Hhit|].
  intros Hq. unfold name_read, get in Hs.
  destruct (dict_get "name" r) as [v|]; [by rewrite Hs|].
  injection Hs as <-. apply substring_empty_r, lower_empty in Hhit.
  contradiction.
Qed.

(** X8. Whatever the dataset, a record [get_exercise_by_name] returns is
    a record of the dataset whose name is a str that contains the query,
    case ignored; when the query is not empty the record has a [name]
    field, so that subscripting it with ['name'] cannot fail. *)
Theorem get_exercise_by_name_sound (D : list dict) (q : string) (r : dict) :
  get_exercise_by_name D q = Ok (Some r) ->
  r ∈ D
  /\ exists s, name_read r = JStr s
               /\ substring (lower q) (lower s)
               /\ (q <> "" -> dict_get "name" r = Some (JStr s)).
Proof. apply get_exercise_by_name_returns. Qed.

Lemma get_exercise_by_name_sound_witness :
  get_exercise_by_name [bench_press; dumbbell_fly] "PRESS"
    = Ok (Some bench_press)
  /\ bench_press ∈ [bench_press; dumbbell_fly].
Proof.
  split; [reflexivity|].
  exact (proj1 (get_exercise_by_name_sound [bench_press; dumbbell_fly]
                  "PRESS" bench_press eq_refl)).
Defined.

(** X9. [get_exercise_by_name] raises exactly when, before any record
    that matches, it reaches a record whose [name] is present and is no
    str (null, a number, a list): the exception is [AttributeError]. A
    record like that after the first match does no harm. *)
Theorem get_exercise_by_name_raises_iff (D : list dict) (q : string)
    (x : exn) :
  get_exercise_by_name D q = Raise x <->
  x = AttributeError
  /\ exists l1 r l2,
       D = l1 ++ r :: l2 /\ name_bad r = true
       /\ Forall (fun r' => name_bad r' = false /\ name_hit q r' = false) l1.
Proof.
  rewrite get_exercise_by_name_total. split.
  - destruct (List.find _ D) as [r|] eqn:Hfind; [|discriminate].
    destruct (name_bad r) eqn:Hbad; [|discriminate]. intros [= <-].
    split; [reflexivity|].
    apply find_first in Hfind as (l1 & l2 & -> & _ & Hl1).
    exists l1, r, l2. repeat split; [exact Hbad|].
    eapply Forall_impl; [exact Hl1|]. intros r' Hr'. cbn beta in Hr'.
    apply orb_false_iff in Hr'. tauto.
  - intros (-> & l1 & r & l2 & -> & Hbad & Hl1).
    assert (List.find (fun r => name_hit q r || name_bad r) (l1 ++ r :: l2)
            = Some r) as ->; [|by rewrite Hbad].
    apply find_first. exists l1, l2. split; [reflexivity|].
    split; [by rewrite Hbad, orb_true_r|].
    eapply Forall_impl; [exact Hl1|]. intros r' [-> ->]. reflexivity.
Qed.

(** X10. Looking a query up in a concatenation is looking it up in the
    first part and, only when nothing is found there, in the second: a
    match or an exception in the first part decides. *)
Theorem get_exercise_by_name_app (D1 D2 : list dict) (q : string) :
  get_exercise_by_name (D1 ++ D2) q
  = match get_exercise_by_name D1 q with
    | Ok None => get_exercise_by_name D2 q
    | found => found
    end.
Proof.
  unfold get_exercise_by_name. induction D1 as [|r D1 IH]; [reflexivity|].
  cbn [app get_exercise_by_name_loop].
  destruct (str_lower _) as [s|]; simpl_result; [|reflexivity].
  destruct (str_in _ s); [reflexivity | exact IH].
Qed.

Lemma lower_char_idem (c : ascii) : lower_char (lower_char c) = lower_char c.
Proof. destruct c as [[] [] [] [] [] [] [] []]; reflexivity. Qed.

Lemma lower_idem (s : string) : lower (lower s) = lower s.
Proof.
  induction s as [|c s IH]; [reflexivity|]. cbn [lower].
  by rewrite lower_char_idem, IH.
Qed.

(** X11. The case of the query does not matter: two queries with the
    same lower-case form give the same result on every dataset, and so
    does a query and its lower-case form. *)
Theorem get_exercise_by_name_query_case (D : list dict) (q : string) :
  get_exercise_by_name D (lower q) = get_exercise_by_name D q
  /\ forall q', lower q' = lower q ->
                get_exercise_by_name D q' = get_exercise_by_name D q.
Proof.
  unfold get_exercise_by_name. split.
  - by rewrite lower_idem.
  - by intros q' ->.
Qed.

Lemma get_exercise_by_name_query_case_witness :
  get_exercise_by_name [bench_press; dumbbell_fly] "DumbBell FLY"
  = get_exercise_by_name [bench_press; dumbbell_fly] "dumbbell fly".
Proof.
  exact (proj2 (get_exercise_by_name_query_case [bench_press; dumbbell_fly]
                  "dumbbell fly") "DumbBell FLY" eq_refl).
Defined.

Lemma substring_refl (s : string) : substring s s.
Proof.
  exists "", "". change (s = s +:+ "").
  induction s as [|c s IH]; [reflexivity|]. rewrite append_cons. by f_equal.
Qed.

(** X12. On a dataset whose names are strs where present, a query that
    some record matches is never answered with [None]: the lookup returns
    a record that matches it. In particular the full name of a record of
    the dataset always finds a record. *)
Theorem get_exercise_by_name_complete (D : list dict) (q : string)
    (r : dict) :
  forallb name_is_str D = true ->
  r ∈ D ->
  (name_matches q r ->
   exists r', get_exercise_by_name D q = Ok (Some r') /\ name_matches q r')
  /\ exists r', get_exercise_by_name D (name_of r) = Ok (Some r')
                /\ name_matches (name_of r) r'.
Proof.
  intros HD Hr.
  assert (Hgen : forall q0, name_matches q0 r ->
            exists r', get_exercise_by_name D q0 = Ok (Some r')
                       /\ name_matches q0 r').
  { intros q0 Hm. rewrite (get_exercise_by_name_find D q0 HD).
    destruct (List.find _ D) as [r'|] eqn:Hfind.
    - exists r'. split; [reflexivity|].
      apply find_some in Hfind as [_ Hhit]. by apply str_in_spec.
    - apply find_none in Hfind. rewrite List.Forall_forall in Hfind.
      apply list_elem_of_In in Hr. specialize (Hfind r Hr).
      apply str_in_false in Hfind. contradiction. }
  split; [apply Hgen|]. apply Hgen. apply substring_refl.
Qed.

Lemma get_exercise_by_name_complete_witness :
  exists r', get_exercise_by_name [bench_press; dumbbell_fly]
               (name_of dumbbell_fly) = Ok (Some r')
             /\ name_matches (name_of dumbbell_fly) r'.
Proof.
  refine (proj2 (get_exercise_by_name_complete [bench_press; dumbbell_fly]
                   "fly" dumbbell_fly eq_refl _)).
  apply list_elem_of_In. right. by left.
Defined.

(** X13. A record found in the result of a filter is a record of the
    dataset that was filtered, it passes the criteria that were applied,
    and its name contains the query. *)
Theorem get_exercise_by_name_after_filter (D F : list dict)
    (equipment level muscle : option string) (q : string) (r : dict) :
  filter_exercises D equipment level muscle = Ok F ->
  get_exercise_by_name F q = Ok (Some r) ->
  r ∈ D
  /\ fields_pass equipment level r = true
  /\ (forall c, supplied muscle = Some c -> muscle_in c r = true)
  /\ name_hit q r = true.
Proof.
  rewrite filter_exercises_total. destruct (_ && _); [discriminate|].
  intros [= <-]. rewrite get_exercise_by_name_total.
  destruct (List.find _ _) as [r'|] eqn:Hfind; [|discriminate].
  destruct (name_bad r') eqn:Hbad; [discriminate|]. intros [= ->].
  apply find_some in Hfind as [Hin Hhit]. rewrite Hbad, orb_false_r in Hhit.
  apply filter_In in Hin as [Hin Hpass].
  apply andb_true_iff in Hpass as [Hf Hm].
  split; [by apply list_elem_of_In|]. split; [exact Hf|].
  split; [|exact Hhit]. intros c Hc. by rewrite Hc in Hm.
Qed.

Lemma get_exercise_by_name_after_filter_witness :
  dumbbell_fly ∈ [bench_press; dumbbell_fly; unnamed]
  /\ fields_pass None (Some "beginner") dumbbell_fly = true.
Proof.
  destruct (get_exercise_by_name_after_filter
              [bench_press; dumbbell_fly; unnamed] [dumbbell_fly; unnamed]
              None (Some "beginner") None "fly" dumbbell_fly
              eq_refl eq_refl) as (H1 & H2 & _).
  by split.
Defined.

(** ** [export_for_gymmando] and the other methods *)

Lemma simplified_idem (r : dict) : simplified (simplified r) = simplified r.
Proof. reflexivity. Qed.

(** X14. Exporting what was exported changes nothing: the reduced form
    of a reduced dataset is that dataset. *)
Theorem gymmando_format_idempotent (D : list dict) :
  gymmando_format (gymmando_format D) = gymmando_format D.
Proof.
  rewrite !gymmando_format_map, map_map. apply map_ext. intros r.
  apply simplified_idem.
Qed.

Lemma comprehension_map {A B} (f : A -> B) (p : A -> result bool)
    (p' : B -> result bool) (l : list A) :
  (forall x, p' (f x) = p x) ->
  comprehension p' (map f l) = map f <$> comprehension p l.
Proof.
  intros Hp. induction l as [|x l IH]; [reflexivity|].
  cbn [map comprehension]. rewrite Hp, IH.
  destruct (p x) as [b|]; simpl_result; [|reflexivity].
  destruct (comprehension p l) as [rest|]; simpl_result; [|reflexivity].
  by destruct b.
Qed.

Lemma guarded_map (c : option string) (p : string -> dict -> result bool)
    (l : list dict) :
  (forall s x, p s (simplified x) = p s x) ->
  guarded c p (map simplified l) = map simplified <$> guarded c p l.
Proof.
  intros Hp. unfold guarded. destruct c as [s|]; [|reflexivity].
  destruct (truthy (Some s)); [|reflexivity].
  apply comprehension_map. apply Hp.
Qed.

(** X15. The export keeps what the filter reads: filtering the exported
    dataset gives the export of the filtered dataset, and raises when
    filtering the dataset raises. *)
Theorem filter_exercises_gymmando_format (D : list dict)
    (equipment level muscle : option string) :
  filter_exercises (gymmando_format D) equipment level muscle
  = gymmando_format <$> filter_exercises D equipment level muscle.
Proof.
  rewrite gymmando_format_map, !filter_exercises_guarded.
  rewrite guarded_map by reflexivity.
  destruct (guarded equipment _ D) as [F1|]; [|reflexivity].
  cbn [fmap result_fmap]. simpl_result.
  rewrite guarded_map by reflexivity.
  destruct (guarded level _ F1) as [F2|]; [|reflexivity].
  cbn [fmap result_fmap]. simpl_result.
  rewrite guarded_map by reflexivity.
  destruct (guarded muscle _ F2) as [F3|]; [|reflexivity].
  cbn [fmap result_fmap]. by rewrite gymmando_format_map.
Qed.

Lemma name_read_simplified (r : dict) :
  name_read (simplified r) = get r "name" JNull.
Proof. reflexivity. Qed.

(** X16. The export turns a missing name into null, which the lookup
    cannot lower-case. On a dataset in which every record has a [name]
    field the lookup in the exported dataset returns the export of what the
    lookup in the dataset returns; but when the first record has no [name]
    field, every lookup in the exported dataset raises [AttributeError],
    though the lookup in the dataset itself does not fail on that
    record. *)
Theorem get_exercise_by_name_gymmando_format (D : list dict) (q : string) :
  (forallb (dict_has "name") D = true ->
   get_exercise_by_name (gymmando_format D) q
   = fmap (M:=option) simplified <$> get_exercise_by_name D q)
  /\ (forall r, dict_get "name" r = None ->
        get_exercise_by_name (gymmando_format (r :: D)) q
        = Raise AttributeError
        /\ get_exercise_by_name (r :: D) q
           = if String.eqb (lower q) "" then Ok (Some r)
             else get_exercise_by_name D q).
Proof.
  split.
  - rewrite gymmando_format_map. unfold get_exercise_by_name.
    induction D as [|r D IH]; [reflexivity|].
    cbn [forallb map get_exercise_by_name_loop]. rewrite andb_true_iff.
    intros [Hr HD]. rewrite (IH HD).
    assert (get (simplified r) "name" (JStr "") = get r "name" (JStr ""))
      as ->.
    { change (get (simplified r) "name" (JStr "")) with (get r "name" JNull).
      unfold dict_has in Hr. unfold get.
      by destruct (dict_get "name" r). }
    destruct (str_lower _) as [s|]; simpl_result; [|reflexivity].
    by destruct (str_in (lower q) s).
  - intros r Hr. rewrite gymmando_format_map. unfold get_exercise_by_name.
    cbn [map get_exercise_by_name_loop].
    change (get (simplified r) "name" (JStr "")) with (get r "name" JNull).
    unfold get. rewrite Hr. split; [reflexivity|].
    cbn [str_lower lower]. simpl_result.
    destruct (lower q); reflexivity.
Qed.

Lemma get_exercise_by_name_gymmando_format_witness :
  get_exercise_by_name (gymmando_format [bench_press; dumbbell_fly]) "fly"
  = Ok (Some (simplified dumbbell_fly)).
Proof.
  rewrite (proj1 (get_exercise_by_name_gymmando_format
                    [bench_press; dumbbell_fly] "fly") eq_refl).
  reflexivity.
Defined.



(** ** [fetch_github_exercises] and the world *)

Lemma append_inj_l (a b c : string) : a +:+ b = a +:+ c -> b = c.
Proof.
  induction a as [|x a IH]; [by intros H|].
  rewrite !append_cons. intros [= H]. by apply IH.
Qed.

Lemma path_join_inj (dir a b : string) :
  path_join dir a = path_join dir b -> a = b.
Proof.
  unfold path_join. intros H. apply append_inj_l in H.
  by apply (append_inj_l "/") in H.
Qed.

Lemma fetch_paths_differ (self : fetcher) :
  path_join (output_dir self) "github_exercises.json"
  <> path_join (output_dir self) "github_exercises.csv".
Proof. intros H. apply path_join_inj in H. discriminate. Qed.

Lemma fetch_frame (self : fetcher) (w : world) :
  let w' := (fetch_github_exercises self w).2 in
  requests w' = requests w ++ [github_url self]
  /\ forall p,
       p <> path_join (output_dir self) "github_exercises.json" ->
       p <> path_join (output_dir self) "github_exercises.csv" ->
       files w' !! p = files w !! p.
Proof.
  rewrite (fetch_github_exercises_run self w). cbv zeta.
  destruct (net w (length (requests w))) as [|r]; [by split|].
  destruct (_ && _)%bool; [|by split].
  destruct (body r) as [v|]; [|by split].
  destruct (writable w _); [|by split].
  destruct (writable w _); cbn [snd with_file with_request requests files];
    (split; [reflexivity|]); intros p H1 H2;
    by rewrite ?lookup_insert_ne.
Qed.



Lemma fetch_returns (self : fetcher) (w w' : world)
    (v : list dict) :
  fetch_github_exercises self w = (Ok v, w') ->
  (exists r, net w (length (requests w)) = Responded r
             /\ (200 <= status_code r < 300)%Z
             /\ body r = Some v)
  /\ files w' !! path_join (output_dir self) "github_exercises.json"
     = Some (DocJson v)
  /\ files w' !! path_join (output_dir self) "github_exercises.csv"
     = Some (DocCsv (columns (json_normalize v)) (rows (json_normalize v))).
Proof.
  rewrite (fetch_github_exercises_run self w). cbv zeta.
  destruct (net w (length (requests w))) as [|r]; [discriminate|].
  destruct (Z.leb_spec 200 (status_code r)),
    (Z.ltb_spec (status_code r) 300); cbn [andb]; try discriminate.
  destruct (body r) as [v'|] eqn:Hb; [|discriminate].
  destruct (writable w _); [|discriminate].
  destruct (writable w _); [|discriminate].
  intros [= -> <-]. split; [exists r; repeat split; [lia..|exact Hb]|].
  cbn [with_file with_request files]. split.
  - rewrite lookup_insert_ne by (symmetry; apply fetch_paths_differ).
    by rewrite lookup_insert_eq.
  - by rewrite lookup_insert_eq.
Qed.

(** X19. When [fetch_github_exercises] returns a dataset, the response
    had a status in 200..299 and that dataset as its decoded body, and
    both files were written: after the call the JSON file holds the
    dataset returned and the CSV file its table. *)
Theorem fetch_github_exercises_returns (self : fetcher) (w w' : world)
    (v : list dict) :
  fetch_github_exercises self w = (Ok v, w') ->
  (exists r, net w (length (requests w)) = Responded r
             /\ (200 <= status_code r < 300)%Z
             /\ body r = Some v)
  /\ files w' !! path_join (output_dir self) "github_exercises.json"
     = Some (DocJson v)
  /\ files w' !! path_join (output_dir self) "github_exercises.csv"
     = Some (DocCsv (columns (json_normalize v)) (rows (json_normalize v))).
Proof. apply fetch_returns. Qed.

Lemma fetch_github_exercises_returns_witness :
  files (fetch_github_exercises (new_fetcher "exercise_data")
           (example_world 200 true)).2
    !! path_join "exercise_data" "github_exercises.json"
  = Some (DocJson [bench_press; dumbbell_fly]).
Proof.
  exact (proj1 (proj2 (fetch_github_exercises_returns
                         (new_fetcher "exercise_data")
                         (example_world 200 true) _ [bench_press; dumbbell_fly]
                         eq_refl))).
Defined.



(** ** The script *)

Lemma script_paths_differ :
  gymmando_path <> raw_json_path /\ gymmando_path <> raw_csv_path.
Proof.
  split; intros H; apply path_join_inj in H; discriminate.
Qed.

Lemma main_run (w : world) :
  main w =
    let fetcher := new_fetcher "exercise_data" in
    let w1 := (fetch_github_exercises fetcher w).2 in
    match (fetch_github_exercises fetcher w).1 with
    | Raise e => (inr (Propagated e), w1)
    | Ok exercises =>
        match analyze_exercises exercises with
        | Raise e => (inr (Propagated e), w1)
        | Ok _ =>
            match example_filters exercises with
            | Raise e => (inr (Propagated e), w1)
            | Ok (dumbbell, beginner, chest) =>
                match get_exercise_by_name exercises "bench press" with
                | Raise e => (inr (Propagated e), w1)
                | Ok bench_press =>
                    match describe bench_press with
                    | inr x => (inr x, w1)
                    | inl found =>
                        if writable w1 gymmando_path
                        then (inl {| dumbbell_count := dumbbell;
                                     beginner_count := beginner;
                                     chest_count := chest;
                                     bench_press_found := found |},
                              with_file gymmando_path
                                (DocJson (gymmando_format exercises)) w1)
                        else (inr (Propagated OSError), w1)
                    end
                end
            end
        end
    end.
Proof.
  unfold main. cbv zeta.
  destruct (fetch_github_exercises _ w) as [[exercises|e] w1];
    cbn [fst snd]; [|reflexivity].
  destruct (analyze_exercises exercises) as [df|e]; [|reflexivity].
  destruct (example_filters exercises) as [[[d b] c]|e]; [|reflexivity].
  destruct (get_exercise_by_name exercises "bench press") as [bp|e];
    [|reflexivity].
  destruct (describe bp) as [found|x]; [|reflexivity].
  unfold export_for_gymmando, mbind, io_bind, write_file.
  change (path_join (output_dir (new_fetcher "exercise_data"))
            "gymmando_exercises.json") with gymmando_path.
  by destruct (writable w1 gymmando_path).
Qed.

Lemma describe_no_key_error (D : list dict) (bench_press : option dict) :
  get_exercise_by_name D "bench press" = Ok bench_press ->
  describe bench_press <> inr KeyError.
Proof.
  intros Hbp. destruct bench_press as [d|]; [|discriminate].
  apply get_exercise_by_name_returns in Hbp as (_ & s & _ & _ & Hname).
  unfold describe. rewrite Hname by discriminate.
  destruct d; [discriminate|].
  by destruct (py_len _).
Qed.

(** X21. The script never ends with a [KeyError]: the record it
    subscripts with ['name'] was found by a lookup with a query that is
    not empty, so it has that key. *)
Theorem main_no_key_error (w : world) : (main w).1 <> inr KeyError.
Proof.
  rewrite main_run. cbv zeta.
  destruct (fetch_github_exercises _ w).1 as [exercises|e]; [|discriminate].
  destruct (analyze_exercises exercises) as [df|e]; [|discriminate].
  destruct (example_filters exercises) as [[[d b] c]|e]; [|discriminate].
  destruct (get_exercise_by_name exercises "bench press") as [bp|e] eqn:Hbp;
    [|discriminate].
  pose proof (describe_no_key_error exercises bp Hbp) as Hd.
  destruct (describe bp) as [found|x].
  - by destruct (writable _ gymmando_path).
  - cbn [fst]. congruence.
Qed.



(** X23. A run of the script that succeeds has fetched a dataset, and
    leaves three files: the raw JSON file with that dataset, the CSV file
    with its table, and the export file with its reduced form. It sent one
    request. The three numbers it printed are the sizes of the three
    example filters of that dataset. *)
Theorem main_success (w w' : world) (s : summary) :
  main w = (inl s, w') ->
  exists exercises,
    (fetch_github_exercises (new_fetcher "exercise_data") w).1 = Ok exercises
    /\ requests w'
       = requests w ++ [github_url (new_fetcher "exercise_data")]
    /\ files w' !! raw_json_path = Some (DocJson exercises)
    /\ files w' !! raw_csv_path
       = Some (DocCsv (columns (json_normalize exercises))
                      (rows (json_normalize exercises)))
    /\ files w' !! gymmando_path = Some (DocJson (gymmando_format exercises))
    /\ exists dumbbell beginner chest,
         filter_exercises exercises (Some "dumbbell") None None = Ok dumbbell
         /\ filter_exercises exercises None (Some "beginner") None
            = Ok beginner
         /\ filter_exercises exercises None None (Some "chest") = Ok chest
         /\ dumbbell_count s = length dumbbell
         /\ beginner_count s = length beginner
         /\ chest_count s = length chest.
Proof.
  rewrite main_run. cbv zeta.
  destruct (fetch_github_exercises _ w) as [[exercises|e] w1] eqn:Hfetch;
    cbn [fst snd]; [|discriminate].
  destruct (analyze_exercises exercises) as [df|e]; [|discriminate].
  destruct (example_filters exercises) as [[[d b] c]|e] eqn:Hfilters;
    [|discriminate].
  destruct (get_exercise_by_name exercises "bench press") as [bp|e];
    [|discriminate].
  destruct (describe bp) as [found|y]; [|discriminate].
  destruct (writable w1 gymmando_path); [|discriminate].
  intros [= <- <-]. exists exercises. split; [reflexivity|].
  destruct script_paths_differ as [H1 H2].
  pose proof (fetch_frame (new_fetcher "exercise_data") w) as [Hreq _].
  rewrite Hfetch in Hreq. cbn [snd] in Hreq.
  destruct (fetch_returns _ _ _ _ Hfetch) as (_ & Hjson & Hcsv).
  cbn [with_file requests files].
  split; [exact Hreq|].
  split; [by rewrite lookup_insert_ne|].
  split; [by rewrite lookup_insert_ne|].
  split; [by rewrite lookup_insert_eq|].
  unfold example_filters in Hfilters.
  destruct (filter_exercises exercises (Some "dumbbell") None None)
    as [Fd|]; simpl_result; [|discriminate].
  destruct (filter_exercises exercises None (Some "beginner") None)
    as [Fb|]; simpl_result; [|discriminate].
  destruct (filter_exercises exercises None None (Some "chest"))
    as [Fc|]; simpl_result; [|discriminate].
  injection Hfilters as <- <- <-. by exists Fd, Fb, Fc.
Qed.

Lemma main_success_witness :
  files (main (example_world 200 true)).2 !! gymmando_path
  = Some (DocJson (gymmando_format [bench_press; dumbbell_fly])).
Proof.
  destruct (main (example_world 200 true)) as [[s|x] w'] eqn:Hmain.
  - destruct (main_success _ _ _ Hmain) as (v & Hv & _ & _ & _ & Hg & _).
    injection Hv as <-. exact Hg.
  - discriminate Hmain.
Defined.

(** ** The counts add up *)

Lemma tally_add_total (v : json) (t : list (json * nat)) :
  total_count (tally_add v t) = S (total_count t).
Proof.
  unfold total_count, list_sum. induction t as [|[k n] t IH]; [reflexivity|].
  cbn [tally_add]. destruct (key_eq k v); cbn [map fold_right snd]; lia.
Qed.

Lemma tally_total (vs : list json) : total_count (tally vs) = length vs.
Proof.
  unfold tally.
  assert (H : forall t,
             total_count (fold_left (fun t v => tally_add v t) vs t)
             = length vs + total_count t); [|by rewrite H, Nat.add_0_r].
  induction vs as [|v vs IH]; intros t; [reflexivity|].
  cbn [fold_left length]. rewrite IH, tally_add_total. lia.
Qed.

Lemma insert_desc_total (x : json * nat) (t : list (json * nat)) :
  total_count (insert_desc x t) = x.2 + total_count t.
Proof.
  unfold total_count, list_sum. induction t as [|y t IH]; [reflexivity|].
  cbn [insert_desc]. destruct (x.2 <? y.2)%nat; cbn [map fold_right]; lia.
Qed.

Lemma sort_desc_total (t : list (json * nat)) :
  total_count (sort_desc t) = total_count t.
Proof.
  induction t as [|x t IH]; [reflexivity|]. cbn [sort_desc].
  rewrite insert_desc_total, IH. reflexivity.
Qed.

Lemma tally_add_positive (v : json) (t : list (json * nat)) :
  Forall (fun x => 1 <= x.2) t -> Forall (fun x => 1 <= x.2) (tally_add v t).
Proof.
  induction 1 as [|[k n] t Hk Ht IH]; cbn [tally_add].
  - repeat constructor.
  - destruct (key_eq k v); constructor; cbn [snd] in *; try assumption; lia.
Qed.

Lemma tally_positive (vs : list json) : Forall (fun x => 1 <= x.2) (tally vs).
Proof.
  unfold tally.
  assert (H : forall t, Forall (fun x : json * nat => 1 <= x.2) t ->
             Forall (fun x => 1 <= x.2)
               (fold_left (fun t v => tally_add v t) vs t));
    [|apply H; constructor].
  induction vs as [|v vs IH]; intros t Ht; [exact Ht|].
  cbn [fold_left]. by apply IH, tally_add_positive.
Qed.

Lemma counts_table_sum (vs : list json) :
  total_count (sort_desc (tally vs)) = length vs
  /\ Forall (fun x => 1 <= x.2) (sort_desc (tally vs)).
Proof.
  split.
  - by rewrite sort_desc_total, tally_total.
  - eapply Permutation_Forall; [symmetry; apply sort_desc_perm|].
    apply tally_positive.
Qed.

(** X24. In every section the analysis prints, each row has a count of
    at least one and the counts add up: for [equipment] and [level] to the
    number of records that have the field with a value that is not null,
    for the muscles to the number of entries, not null, of all the
    [primaryMuscles] lists. *)
Theorem analyze_exercises_counts_sum (D : list dict) (df : dataframe)
    (rep : report) :
  forallb analysable D = true ->
  analyze_exercises D = Ok (df, rep) ->
  (forall t, by_equipment rep = Some t ->
     total_count t = length (field_values "equipment" D)
     /\ Forall (fun x => 1 <= x.2) t)
  /\ (forall t, by_level rep = Some t ->
        total_count t = length (field_values "level" D)
        /\ Forall (fun x => 1 <= x.2) t)
  /\ (forall t, by_muscle rep = Some t ->
        total_count t = length (List.filter not_null (muscle_values D))
        /\ Forall (fun x => 1 <= x.2) t).
Proof.
  intros HD. rewrite (analyze_exercises_flat D HD). intros [= _ <-].
  cbn [by_equipment by_level by_muscle].
  repeat split;
    match goal with
    | H : (if ?b then _ else _) = Some _ |- _ =>
        destruct b; [injection H as <-|discriminate]
    end; apply counts_table_sum.
Qed.

Lemma analyze_exercises_counts_sum_witness :
  exists df rep,
    analyze_exercises [bench_press; dumbbell_fly; unnamed] = Ok (df, rep)
    /\ forall t, by_level rep = Some t -> total_count t = 3.
Proof.
  do 2 eexists. split; [reflexivity|]. intros t Ht.
  exact (proj1 (proj1 (proj2 (analyze_exercises_counts_sum
                                [bench_press; dumbbell_fly; unnamed] _ _
                                eq_refl eq_refl)) t Ht)).
Defined.
